(** * expense-tracker: a shallow embedding of the record model, the JSON
      storage and the expense manager, with the properties of its
      specification.

    Source files embedded here:
    - [expense_tracker/models.py]   (class [Expense])
    - [expense_tracker/storage.py]  (class [JSONStorage])
    - [expense_tracker/manager.py]  (class [ExpenseManager])
    - [expense_tracker/cli.py]      (commands [add] and [delete])

    Conventions.
    - A Python [str] is a [string]; its characters are the code points
      below 256, compared by code point as Python compares them.
    - A Python [float] is an IEEE-754 binary64 value, a [spec_float] used
      at precision 53 and maximal exponent 1024.
    - A Python exception is a value of [exn]; a call that may raise returns
      a [result].
    - The backing file is a value of [disk]; the storage state also counts
      the writes. *)

From Stdlib Require Import Bool List ZArith NArith Lia Ascii String.
From Stdlib Require Import Permutation Sorted.
From Stdlib Require Import Floats.SpecFloat.
Import ListNotations.

Set Implicit Arguments.

(* ================================================================== *)
(** * Part I: the embedding                                            *)
(* ================================================================== *)

(** ** Exceptions and results *)

Inductive exn : Type :=
| ValueError (msg : string)
| KeyError (key : string)
| TypeError
| AttributeError
| OverflowError
| PermissionError.

Inductive result (A : Type) : Type :=
| Ok (a : A)
| Raise (e : exn).

Arguments Ok {A} a.
Arguments Raise {A} e.

Definition bind {A B : Type} (r : result A) (k : A -> result B) : result B :=
  match r with
  | Ok a => k a
  | Raise e => Raise e
  end.

Notation "x <- r ;; k" := (bind r (fun x => k))
  (at level 61, r at next level, right associativity).

Definition is_ok {A : Type} (r : result A) : bool :=
  match r with Ok _ => true | Raise _ => false end.

(** [ValueError] is the validation error of the record model. *)
Definition is_validation_error {A : Type} (r : result A) : bool :=
  match r with Raise (ValueError _) => true | _ => false end.

(** ** Python strings *)

Module PyStr.

(** [str.isspace] on one character: TAB..CR, FS..US, SPACE, NEL, NBSP. *)
Definition is_space (c : ascii) : bool :=
  let n := N_of_ascii c in
  ((9 <=? n) && (n <=? 13) || (28 <=? n) && (n <=? 32)
   || (n =? 133) || (n =? 160))%N.

(** [str.lower] on one character: A..Z and the Latin-1 capitals
    (all of 192..222 but the multiplication sign 215) move up by 32. *)
Definition lower_char (c : ascii) : ascii :=
  let n := N_of_ascii c in
  if ((65 <=? n) && (n <=? 90)
      || (192 <=? n) && (n <=? 222) && negb (n =? 215))%N
  then ascii_of_N (n + 32) else c.

Fixpoint lower (s : string) : string :=
  match s with
  | EmptyString => EmptyString
  | String c s' => String (lower_char c) (lower s')
  end.

Definition is_empty (s : string) : bool :=
  match s with EmptyString => true | String _ _ => false end.

Fixpoint lstrip (s : string) : string :=
  match s with
  | EmptyString => EmptyString
  | String c s' => if is_space c then lstrip s' else s
  end.

Fixpoint rstrip (s : string) : string :=
  match s with
  | EmptyString => EmptyString
  | String c s' =>
      let r := rstrip s' in
      if is_space c && is_empty r then EmptyString else String c r
  end.

(** [s.strip()] *)
Definition strip (s : string) : string := rstrip (lstrip s).

(** [s.startswith(p)] *)
Definition startswith (s p : string) : bool := String.prefix p s.

(** [a <= b] and [a >= b] on strings: lexicographic on code points. *)
Definition le (a b : string) : bool := String.leb a b.
Definition ge (a b : string) : bool := String.leb b a.

(** All characters are white space (so that [strip] leaves nothing). *)
Fixpoint blank (s : string) : bool :=
  match s with
  | EmptyString => true
  | String c s' => is_space c && blank s'
  end.

(** A string that does not begin with white space. *)
Definition tight_left (s : string) : bool :=
  match s with
  | EmptyString => true
  | String c _ => negb (is_space c)
  end.

End PyStr.

(** ** Python floats (binary64) *)

Module F64.

Definition float : Type := spec_float.

Definition prec : Z := 53.
Definition emax : Z := 1024.

Definition zero : float := S754_zero false.
Definition nan : float := S754_nan.

Definition add : float -> float -> float := SFadd prec emax.
Definition sub : float -> float -> float := SFsub prec emax.
Definition mul : float -> float -> float := SFmul prec emax.
Definition div : float -> float -> float := SFdiv prec emax.

(** [x <= y]; false as soon as one side is NaN. *)
Definition leb : float -> float -> bool := SFleb.

Definition isnan (x : float) : bool :=
  match x with S754_nan => true | _ => false end.

(** [fabs(x)] *)
Definition abs : float -> float := SFabs.

(** [x == 0] *)
Definition is_zero (x : float) : bool :=
  match x with S754_zero _ => true | _ => false end.

(** [isfinite(x)] *)
Definition is_finite (x : float) : bool :=
  match x with S754_zero _ | S754_finite _ _ _ => true | _ => false end.

(** The float nearest to an integer (ties to even); an integer beyond the
    range of binary64 gives an infinity here. *)
Definition of_Z (n : Z) : float := binary_normalize prec emax n 0 false.

(** The float nearest to [n / 10^k], for [n] and [10^k] below [2^53]:
    the value of the decimal literal. *)
Definition dec (n : Z) (k : nat) : float :=
  div (of_Z n) (of_Z (10 ^ Z.of_nat k)).

(** Nearest integer to [m / 2^k], ties to even. *)
Definition round_half_even (m : Z) (k : Z) : Z :=
  let d := (2 ^ k)%Z in
  let q := (m / d)%Z in
  let r := (m mod d)%Z in
  match (2 * r ?= d)%Z with
  | Lt => q
  | Gt => (q + 1)%Z
  | Eq => if Z.even q then q else (q + 1)%Z
  end.

(** C's [rint] in the default rounding mode. *)
Definition rint (x : float) : float :=
  match x with
  | S754_finite s m e =>
      if (0 <=? e)%Z then x
      else
        match round_half_even (Zpos m) (- e) with
        | Z0 => S754_zero s
        | n => binary_normalize prec emax (cond_Zopp s n) 0 s
        end
  | _ => x
  end.

End F64.

(** ** The record model ([models.py]) *)

Module Models.

(** A value that [json.load] can put under a key, as far as the code
    looks at it: [float], [.lower] and [.strip] tell these cases apart
    and never look inside a list or an object. *)
Inductive value : Type :=
| VNone
| VBool (b : bool)
| VInt (n : Z)
| VFloat (f : F64.float)
| VStr (s : string)
| VList
| VDict.

(** The mapping form of a record: the six keys that [to_dict] writes and
    [from_dict] reads, each present or not.  The three keys that the code
    hands on without looking at them hold strings, as the dataclass
    declares them. *)
Record dict : Type := mkDict {
  d_amount : option value;
  d_category : option value;
  d_description : option value;
  d_date : option string;
  d_id : option string;
  d_created_at : option string
}.

(** One element of the stored array. *)
Inductive item : Type :=
| Obj (d : dict)
| NotObj (v : value).

(** class Expense *)
Record Expense : Type := mkExpense {
  amount : F64.float;
  category : string;
  description : string;
  date : string;
  id : string;
  created_at : string
}.

(** What the default factories give at one call:
    [datetime.now().strftime("%Y-%m-%d")], [str(uuid.uuid4())[:8]] and
    [datetime.now().isoformat()]. *)
Record defaults : Type := mkDefaults {
  today : string;
  uuid8 : string;
  now_iso : string
}.

Definition msg_amount : string := "Amount must be positive".
Definition msg_description : string := "Description cannot be empty".

(** [s.lower()] and [s.strip()] exist on a [str] only. *)
Definition py_lower (v : value) : result string :=
  match v with
  | VStr s => Ok (PyStr.lower s)
  | _ => Raise AttributeError
  end.

Definition py_strip (v : value) : result string :=
  match v with
  | VStr s => Ok (PyStr.strip s)
  | _ => Raise AttributeError
  end.

(** [Expense(amount=.., category=.., description=.., date=.., id=..,
    created_at=..)]: the generated [__init__] stores the six arguments
    and runs [__post_init__], which is the body below. *)
Definition __post_init__ (amount : F64.float) (category description : value)
    (date id created_at : string) : result Expense :=
  if F64.leb amount F64.zero then Raise (ValueError msg_amount)
  else
    lowered <- py_lower category ;;
    let category := PyStr.strip lowered in
    stripped <- py_strip description ;;
    if PyStr.is_empty stripped then Raise (ValueError msg_description)
    else Ok (mkExpense amount category stripped date id created_at).

(** [Expense(amount, category, description, ...)] on arguments of the
    declared types. *)
Definition new_Expense (amount : F64.float) (category description : string)
    (date id created_at : string) : result Expense :=
  __post_init__ amount (VStr category) (VStr description) date id created_at.

(** [asdict(self)] *)
Definition to_dict (self : Expense) : dict :=
  mkDict (Some (VFloat (amount self)))
         (Some (VStr (category self)))
         (Some (VStr (description self)))
         (Some (date self))
         (Some (id self))
         (Some (created_at self)).

(** The invariant that [__post_init__] sets up: the amount is not at or
    below zero, the category and the description are in normal form and
    the description is not empty. *)
Definition valid (e : Expense) : bool :=
  negb (F64.leb (amount e) F64.zero)
  && String.eqb (PyStr.strip (PyStr.lower (category e))) (category e)
  && String.eqb (PyStr.strip (description e)) (description e)
  && negb (PyStr.is_empty (description e)).

Section FromDict.

(** [float(s)] on a string: Python's parser of float literals, [None]
    where it raises. *)
Variable parse_float : string -> option F64.float.

(** [float(v)] *)
Definition py_float (v : value) : result F64.float :=
  match v with
  | VFloat f => Ok f
  | VInt n =>
      match F64.of_Z n with
      | S754_infinity _ => Raise OverflowError
      | f => Ok f
      end
  | VBool b => Ok (F64.of_Z (if b then 1 else 0))
  | VStr s =>
      match parse_float s with
      | Some f => Ok f
      | None => Raise (ValueError "could not convert string to float")
      end
  | VNone | VList | VDict => Raise TypeError
  end.

(** [data[key]] *)
Definition getitem {A : Type} (key : string) (entry : option A) : result A :=
  match entry with
  | Some v => Ok v
  | None => Raise (KeyError key)
  end.

(** [data.get(key, default)] *)
Definition get {A : Type} (entry : option A) (default : A) : A :=
  match entry with
  | Some v => v
  | None => default
  end.

(** [Expense.from_dict(data)]; [dflt] holds what the three default
    expressions evaluate to at this call. *)
Definition from_dict (dflt : defaults) (data : item) : result Expense :=
  match data with
  | NotObj _ => Raise AttributeError
  | Obj data =>
      let id := get (d_id data) (uuid8 dflt) in
      raw_amount <- getitem "amount" (d_amount data) ;;
      amount <- py_float raw_amount ;;
      category <- getitem "category" (d_category data) ;;
      description <- getitem "description" (d_description data) ;;
      let date := get (d_date data) (today dflt) in
      let created_at := get (d_created_at data) (now_iso dflt) in
      __post_init__ amount category description date id created_at
  end.

End FromDict.

End Models.

(** ** The storage ([storage.py]) *)

Module Storage.
Import Models.

(** What [json.load] returns: a list, or anything else. *)
Inductive document : Type :=
| JArray (items : list item)
| JOther.

(** The backing file as [open] and [json.load] see it:
    - [Absent]: [open] raises [FileNotFoundError];
    - [Denied]: [open] raises [PermissionError] (no access to the file);
    - [Garbled]: [json.load] raises [JSONDecodeError];
    - [Json doc]: [json.load] returns [doc]. *)
Inductive disk : Type :=
| Absent
| Denied
| Garbled
| Json (doc : document).

(** The storage state: the file and the number of [json.dump] calls made
    on it so far. *)
Record state : Type := mkState {
  file : disk;
  writes : nat
}.

(** [JSONStorage._read_data] *)
Definition _read_data (st : state) : result (list item) :=
  match file st with
  | Json (JArray data) => Ok data
  | Json JOther => Ok []
  | Garbled | Absent => Ok []
  | Denied => Raise PermissionError
  end.

(** [JSONStorage._write_data] *)
Definition _write_data (st : state) (data : list item) : result state :=
  match file st with
  | Denied => Raise PermissionError
  | _ => Ok (mkState (Json (JArray data)) (S (writes st)))
  end.

(** [JSONStorage._ensure_file_exists] *)
Definition _ensure_file_exists (st : state) : result state :=
  match file st with
  | Absent => _write_data st []
  | _ => Ok st
  end.

Section Load.

Variable parse_float : string -> option F64.float.

(** [gen i] holds what the default expressions of [from_dict] evaluate
    to at its call on the element of index [i]. *)
Variable gen : nat -> defaults.

(** The loop of [load_expenses], from the element of index [i] on: the
    records read and the exceptions reported by the warnings printed. *)
Fixpoint load_loop (i : nat) (data : list item)
  : result (list Expense * list exn) :=
  match data with
  | [] => Ok ([], [])
  | item :: rest =>
      match from_dict parse_float (gen i) item with
      | Ok e =>
          r <- load_loop (S i) rest ;;
          Ok (e :: fst r, snd r)
      | Raise (ValueError msg) =>
          r <- load_loop (S i) rest ;;
          Ok (fst r, ValueError msg :: snd r)
      | Raise (KeyError key) =>
          r <- load_loop (S i) rest ;;
          Ok (fst r, KeyError key :: snd r)
      | Raise e => Raise e
      end
  end.

(** [JSONStorage.load_expenses], with the warnings it prints. *)
Definition load_expenses_log (st : state)
  : result (list Expense * list exn) :=
  data <- _read_data st ;;
  load_loop 0 data.

(** [JSONStorage.load_expenses] *)
Definition load_expenses (st : state) : result (list Expense) :=
  r <- load_expenses_log st ;;
  Ok (fst r).

(** [JSONStorage.save_expenses] *)
Definition save_expenses (st : state) (expenses : list Expense)
  : result state :=
  let data := map (fun expense => Obj (to_dict expense)) expenses in
  _write_data st data.

(** [JSONStorage.add_expense] *)
Definition add_expense (st : state) (expense : Expense) : result state :=
  expenses <- load_expenses st ;;
  let expenses := expenses ++ [expense] in
  save_expenses st expenses.

(** [JSONStorage.delete_expense] *)
Definition delete_expense (st : state) (expense_id : string)
  : result (bool * state) :=
  expenses <- load_expenses st ;;
  let original_count := List.length expenses in
  let expenses :=
    filter (fun e => negb (String.eqb (id e) expense_id)) expenses in
  if Nat.ltb (List.length expenses) original_count then
    st' <- save_expenses st expenses ;;
    Ok (true, st')
  else Ok (false, st).

(** [JSONStorage.get_expense_by_id] *)
Definition get_expense_by_id (st : state) (expense_id : string)
  : result (option Expense) :=
  expenses <- load_expenses st ;;
  Ok (find (fun expense => String.eqb (id expense) expense_id) expenses).

End Load.

End Storage.

(** ** Sorting as [list.sort] and [sort_values] leave a list *)

Module Sort.
Section Sort.
Variable A : Type.

(** [before a b]: [a] may stand in front of [b]. *)
Variable before : A -> A -> bool.

(** Insertion in front of the first element that [x] may precede: among
    elements that compare equal the one met first stays first. *)
Fixpoint insert (x : A) (l : list A) : list A :=
  match l with
  | [] => [x]
  | h :: t => if before x h then x :: h :: t else h :: insert x t
  end.

Definition sort (l : list A) : list A := fold_right insert [] l.
End Sort.
End Sort.

(** ** What [get_summary] uses of pandas and numpy *)

Module Pandas.

(** A NaN is a missing value. *)
Definition notna (x : F64.float) : bool := negb (F64.isnan x).

(** [count]: the number of values that are not missing. *)
Definition count (xs : list F64.float) : Z :=
  Z.of_nat (List.length (filter notna xs)).

(** The float64 kernels behind [sum], [mean] and [round(2)].  They are code
    of pandas and numpy, not of this program, and what they return in the
    last bits and at overflow is not the same in every release (compensated
    or plain summation); they are parameters of [get_summary]. *)
Record kernels : Type := mkKernels {
  sum : list F64.float -> F64.float;
  mean : list F64.float -> F64.float;
  round2 : F64.float -> F64.float
}.

(** The order of [sort_values(ascending=False)] on a float column:
    larger first, NaN last. *)
Definition desc (a b : F64.float) : bool :=
  F64.isnan b || negb (F64.isnan a) && F64.leb b a.

End Pandas.

(** ** The manager ([manager.py]) *)

Module Manager.
Import Models.

(** One row of the frame that [get_summary] returns. *)
Record summary_row : Type := mkRow {
  row_category : string;
  row_total : F64.float;
  row_count : Z;
  row_average : F64.float
}.

(** [x or default] on an optional string. *)
Definition or_default (x : option string) (default : string) : string :=
  match x with
  | Some s => if PyStr.is_empty s then default else s
  | None => default
  end.

(** [if x: expenses = f(x, expenses)] on an optional string. *)
Definition if_given (x : option string)
    (f : string -> list Expense -> list Expense) (expenses : list Expense)
  : list Expense :=
  match x with
  | Some s => if PyStr.is_empty s then expenses else f s expenses
  | None => expenses
  end.

(** [expenses.sort(key=lambda e: e.date, reverse=True)] *)
Definition date_desc (a b : Expense) : bool := PyStr.ge (date a) (date b).

Definition sort_by_date_desc (expenses : list Expense) : list Expense :=
  Sort.sort date_desc expenses.

(** [if limit and limit > 0: expenses = expenses[:limit]] *)
Definition apply_limit (limit : option Z) (expenses : list Expense)
  : list Expense :=
  match limit with
  | Some n => if (0 <? n)%Z then firstn (Z.to_nat n) expenses else expenses
  | None => expenses
  end.

(** [df.groupby("category")] on the amount column: one group per
    category, the keys in ascending order, each with its amounts in the
    order of the frame. *)
Fixpoint group_insert (key : string) (x : F64.float)
    (groups : list (string * list F64.float))
  : list (string * list F64.float) :=
  match groups with
  | [] => [(key, [x])]
  | (k, xs) :: rest =>
      match String.compare key k with
      | Eq => (k, xs ++ [x]) :: rest
      | Lt => (key, [x]) :: groups
      | Gt => (k, xs) :: group_insert key x rest
      end
  end.

Definition group_step (groups : list (string * list F64.float))
    (e : Expense) : list (string * list F64.float) :=
  group_insert (category e) (amount e) groups.

Definition groupby_category (df : list Expense)
  : list (string * list F64.float) :=
  fold_left group_step df [].

(** [.agg(total=sum, count=count, average=mean).reset_index()] *)
Definition agg (K : Pandas.kernels) (groups : list (string * list F64.float))
  : list summary_row :=
  map (fun g => mkRow (fst g) (Pandas.sum K (snd g)) (Pandas.count (snd g))
                      (Pandas.mean K (snd g)))
      groups.

(** [summary.sort_values("total", ascending=False)].  The order of rows
    with equal totals is the choice of pandas' sorting routine and is not
    modelled: here such rows keep their order, and nothing proved below
    depends on it. *)
Definition sort_values_total_desc (summary : list summary_row)
  : list summary_row :=
  Sort.sort (fun a b => Pandas.desc (row_total a) (row_total b)) summary.

(** The two [round(2)] assignments. *)
Definition round_row (K : Pandas.kernels) (r : summary_row) : summary_row :=
  mkRow (row_category r) (Pandas.round2 K (row_total r)) (row_count r)
        (Pandas.round2 K (row_average r)).

(** A Python number: [sum] starts from the integer 0 and goes over to
    floats with the first amount added. *)
Inductive number : Type :=
| Int (n : Z)
| Float (f : F64.float).

(** [acc + x] for a float [x]: an integer on the left is converted. *)
Definition add_float (acc : number) (x : F64.float) : number :=
  match acc with
  | Int n => Float (F64.add (F64.of_Z n) x)
  | Float f => Float (F64.add f x)
  end.

(** The built-in [sum] adds floats in one of two ways, by the version of
    the interpreter: CPython 3.10 and 3.11 add from left to right, CPython
    3.12 and later carry a compensation along (Neumaier's summation). *)
Inductive summation : Type :=
| LeftToRight
| Compensated.

(** [sum(xs)] in CPython 3.10 and 3.11. *)
Definition sum_left_to_right (xs : list F64.float) : number :=
  fold_left add_float xs (Int 0).

(** One step of the compensated loop: the running sum and the
    compensation. *)
Definition neumaier_step (acc : F64.float * F64.float) (x : F64.float)
  : F64.float * F64.float :=
  let '(f_result, c) := acc in
  let t := F64.add f_result x in
  let c :=
    if F64.leb (F64.abs x) (F64.abs f_result)
    then F64.add c (F64.add (F64.sub f_result t) x)
    else F64.add c (F64.add (F64.sub x t) f_result) in
  (t, c).

(** [sum(xs)] in CPython 3.12 and later: the first float is added to the
    integer 0, the others go through the compensated loop, and a
    compensation that is finite and not zero is added at the end. *)
Definition sum_compensated (xs : list F64.float) : number :=
  match xs with
  | [] => Int 0
  | x :: rest =>
      let '(f_result, c) :=
        fold_left neumaier_step rest (F64.add (F64.of_Z 0) x, F64.zero) in
      Float (if negb (F64.is_zero c) && F64.is_finite c
             then F64.add f_result c else f_result)
  end.

(** [sum(xs)] of the built-ins over floats. *)
Definition py_sum (how : summation) (xs : list F64.float) : number :=
  match how with
  | LeftToRight => sum_left_to_right xs
  | Compensated => sum_compensated xs
  end.

(** [sorted(set(xs))] on strings: the distinct elements in ascending
    order. *)
Fixpoint insert_unique (k : string) (l : list string) : list string :=
  match l with
  | [] => [k]
  | h :: t =>
      match String.compare k h with
      | Eq => l
      | Lt => k :: l
      | Gt => h :: insert_unique k t
      end
  end.

Definition sorted_set (xs : list string) : list string :=
  fold_left (fun acc k => insert_unique k acc) xs [].

(** The frame that [export_to_csv] hands to [to_csv]: its column names and
    its rows, cell by cell. *)
Record frame : Type := mkFrame {
  columns : list string;
  rows : list (list value)
}.

(** The two branches of [export_to_csv] that build the frame: without a
    record the five columns named in the code, with records the six keys of
    [to_dict] in the order of the list [columns]. *)
Definition export_frame (expenses : list Expense) : frame :=
  match expenses with
  | [] =>
      mkFrame ["id"; "date"; "category"; "amount"; "description"]%string []
  | _ =>
      mkFrame
        ["id"; "date"; "category"; "amount"; "description"; "created_at"]%string
        (map (fun e => [VStr (id e); VStr (date e); VStr (category e);
                        VFloat (amount e); VStr (description e);
                        VStr (created_at e)])
             expenses)
  end.

Section Manager.

Variable parse_float : string -> option F64.float.
Variable gen : nat -> defaults.

(** [ExpenseManager.add_expense]; [dflt] holds what the clock and
    [uuid4] give during the call. *)
Definition add_expense (dflt : defaults) (st : Storage.state)
    (amount : F64.float) (category description : string)
    (date : option string) : result (Expense * Storage.state) :=
  expense <- new_Expense amount category description
               (or_default date (today dflt)) (uuid8 dflt) (now_iso dflt) ;;
  st' <- Storage.add_expense parse_float gen st expense ;;
  Ok (expense, st').

(** [ExpenseManager.list_expenses] *)
Definition list_expenses (st : Storage.state)
    (category start_date end_date : option string) (limit : option Z)
  : result (list Expense) :=
  expenses <- Storage.load_expenses parse_float gen st ;;
  let expenses :=
    if_given category
      (fun category expenses =>
         let category := PyStr.strip (PyStr.lower category) in
         filter (fun e => String.eqb (Models.category e) category) expenses)
      expenses in
  let expenses :=
    if_given start_date
      (fun start_date expenses =>
         filter (fun e => PyStr.ge (date e) start_date) expenses)
      expenses in
  let expenses :=
    if_given end_date
      (fun end_date expenses =>
         filter (fun e => PyStr.le (date e) end_date) expenses)
      expenses in
  let expenses := sort_by_date_desc expenses in
  Ok (apply_limit limit expenses).

(** [ExpenseManager.delete_expense] *)
Definition delete_expense (st : Storage.state) (expense_id : string)
  : result (bool * Storage.state) :=
  Storage.delete_expense parse_float gen st expense_id.

(** [ExpenseManager.get_summary]; the empty frame is the empty list of
    rows. *)
Definition get_summary (K : Pandas.kernels) (st : Storage.state)
    (month : option string) : result (list summary_row) :=
  expenses <- Storage.load_expenses parse_float gen st ;;
  match expenses with
  | [] => Ok []
  | _ =>
      let df := expenses in
      let df :=
        if_given month
          (fun month df =>
             filter (fun e => PyStr.startswith (date e) month) df)
          df in
      match df with
      | [] => Ok []
      | _ =>
          let summary := agg K (groupby_category df) in
          let summary := sort_values_total_desc summary in
          Ok (map (round_row K) summary)
      end
  end.

(** [ExpenseManager.get_total_spending]; [how] is the summation of the
    interpreter that runs the program. *)
Definition get_total_spending (how : summation) (st : Storage.state)
    (month : option string) : result number :=
  expenses <- Storage.load_expenses parse_float gen st ;;
  let expenses :=
    if_given month
      (fun month expenses =>
         filter (fun e => PyStr.startswith (date e) month) expenses)
      expenses in
  Ok (py_sum how (map amount expenses)).

(** [ExpenseManager.export_to_csv]: the count returned and the frame
    written; the text that [to_csv] makes of the frame is left out. *)
Definition export_to_csv (st : Storage.state)
    (category start_date end_date : option string) (limit : option Z)
  : result (nat * frame) :=
  expenses <- list_expenses st category start_date end_date limit ;;
  Ok (List.length expenses, export_frame expenses).

(** [ExpenseManager.get_categories] *)
Definition get_categories (st : Storage.state) : result (list string) :=
  expenses <- Storage.load_expenses parse_float gen st ;;
  Ok (sorted_set (map Models.category expenses)).

End Manager.

End Manager.

(** ** The commands [add] and [delete] of the command line ([cli.py]) *)

Module Cli.
Import Models.

(** The closing message of a command; the panels and tables printed on the
    way are left out. *)
Inductive message : Type :=
| Added (e : Expense)
| Rejected (msg : string)
| NotFound
| Cancelled
| Deleted
| Failed.

(** How a command ends: the exit status, the closing message and the
    storage it leaves. *)
Record outcome : Type := mkOutcome {
  status : Z;
  said : message;
  store : Storage.state
}.

(** [get_manager]: [JSONStorage(storage_file)] creates the file when it is
    absent. *)
Definition get_manager (st : Storage.state) : result Storage.state :=
  Storage._ensure_file_exists st.

Section Cli.

Variable parse_float : string -> option F64.float.

(** The command [add]; [gen] and [dflt] as for the manager.  A
    [ValueError] is caught and ends the command with status 1. *)
Definition add (gen : nat -> defaults) (dflt : defaults) (st : Storage.state)
    (amount : F64.float) (category description : string)
    (date : option string) : result outcome :=
  st <- get_manager st ;;
  match Manager.add_expense parse_float gen dflt st amount category
                            description date with
  | Ok (expense, st') => Ok (mkOutcome 0 (Added expense) st')
  | Raise (ValueError msg) => Ok (mkOutcome 1 (Rejected msg) st)
  | Raise e => Raise e
  end.

(** The command [delete]; [gen1] serves the load of [get_expense_by_id]
    and [gen2] the load of [delete_expense]; [confirm] is the answer given
    to the prompt, asked only without [force]. *)
Definition delete (gen1 gen2 : nat -> defaults) (st : Storage.state)
    (expense_id : string) (force confirm : bool) : result outcome :=
  st <- get_manager st ;;
  expense <- Storage.get_expense_by_id parse_float gen1 st expense_id ;;
  match expense with
  | None => Ok (mkOutcome 1 NotFound st)
  | Some _ =>
      if negb force && negb confirm then Ok (mkOutcome 0 Cancelled st)
      else
        r <- Manager.delete_expense parse_float gen2 st expense_id ;;
        if fst r then Ok (mkOutcome 0 Deleted (snd r))
        else Ok (mkOutcome 1 Failed (snd r))
  end.

End Cli.

End Cli.

(** ** The filter of [list_expenses] in the words of the specification *)

Module Spec.
Import Models.

(** A record passes when its category is the requested one, lowercased
    and trimmed, and its date lies between the two bounds, each test
    made when its filter is given. *)
Definition keeps (category start_date end_date : option string)
    (e : Expense) : bool :=
  match category with
  | Some c => String.eqb (Models.category e) (PyStr.lower (PyStr.strip c))
  | None => true
  end
  && match start_date with
     | Some s => String.leb s (date e)
     | None => true
     end
  && match end_date with
     | Some s => String.leb (date e) s
     | None => true
     end.

(** A filter given as the empty string counts as not given. *)
Definition given (x : option string) : option string :=
  match x with
  | Some EmptyString => None
  | _ => x
  end.

(** The records of a month: the date begins with the prefix, when one is
    given. *)
Definition in_month (month : option string) (e : Expense) : bool :=
  match month with
  | Some m => String.prefix m (date e)
  | None => true
  end.

(** The amounts of the records of one category, in their order. *)
Definition amounts_of (k : string) (df : list Expense) : list F64.float :=
  map amount (filter (fun e => String.eqb (category e) k) df).

(** The row of one category: the pandas sum, count and mean of its
    amounts, before rounding. *)
Definition row_of (K : Pandas.kernels) (df : list Expense) (k : string)
  : Manager.summary_row :=
  Manager.mkRow k (Pandas.sum K (amounts_of k df))
                (Pandas.count (amounts_of k df))
                (Pandas.mean K (amounts_of k df)).

(** The keys of a list of groups, and the strict order on keys. *)
Definition keys (groups : list (string * list F64.float)) : list string :=
  map fst groups.

Definition key_lt (a b : string) : Prop := String.compare a b = Lt.

(** The amounts filed under a key in a list of groups. *)
Fixpoint group_get (k : string) (groups : list (string * list F64.float))
  : option (list F64.float) :=
  match groups with
  | [] => None
  | (k', xs) :: rest => if String.eqb k k' then Some xs else group_get k rest
  end.

End Spec.

(** ** Shapes of stored elements and of records *)

Module Shape.
Import Models.

(** An object that carries the three keys [from_dict] has defaults for; an
    element that is not an object is read the same way whatever the
    defaults are. *)
Definition has_all_keys (it : item) : bool :=
  match it with
  | Obj d =>
      match d_id d, d_date d, d_created_at d with
      | Some _, Some _, Some _ => true
      | _, _, _ => false
      end
  | NotObj _ => true
  end.

(** The record carries the id. *)
Definition has_id (x : string) (e : Expense) : bool := String.eqb (id e) x.

(** The record carries the date. *)
Definition has_date (d : string) (e : Expense) : bool :=
  String.eqb (date e) d.

End Shape.

(** ** Sample data *)

Module Samples.
Import Models Storage.
Open Scope string_scope.

Definition clock (i : nat) : defaults :=
  mkDefaults "2024-06-01" "0a1b2c3d" "2024-06-01T09:00:00".

Definition expense (amount : Z) (category date id : string) : Expense :=
  mkExpense (F64.of_Z amount) category "lunch" date id "2024-01-15T12:30:00".

Definition lunch : Expense := expense 12 "food" "2024-01-15" "a1b2c3d4".

Definition stored (es : list Expense) : state :=
  mkState (Json (JArray (map (fun e => Obj (to_dict e)) es))) 0.

Definition store_lunch : state := stored [lunch].

(** A file with a record of negative amount between two valid ones. *)
Definition store_mixed : state :=
  mkState
    (Json
       (JArray
          [Obj (to_dict lunch);
           Obj (mkDict (Some (VFloat (F64.of_Z (-5)))) (Some (VStr "food"))
                       (Some (VStr "lunch")) (Some "2024-01-16")
                       (Some "b2c3d4e5") (Some "2024-01-16T08:00:00"));
           Obj (to_dict (expense 7 "taxi" "2024-01-20" "d0d0d0d0"))]))
    0.

(** Three records of category food (10, 20, 30) and one of category
    transport (5). *)
Definition store_summary : state :=
  stored [expense 10 "food" "2024-01-03" "00000001";
          expense 5 "transport" "2024-01-04" "00000002";
          expense 20 "food" "2024-01-10" "00000003";
          expense 30 "food" "2024-02-01" "00000004"].

(** The records that [store_summary] holds. *)
Definition summary_records : list Expense :=
  [expense 10 "food" "2024-01-03" "00000001";
   expense 5 "transport" "2024-01-04" "00000002";
   expense 20 "food" "2024-01-10" "00000003";
   expense 30 "food" "2024-02-01" "00000004"].

(** A record of the given amount. *)
Definition spent (amount : F64.float) (id : string) : Expense :=
  mkExpense amount "food" "lunch" "2024-01-15" id "2024-01-15T12:30:00".




(** One set of kernels to run the summary on the samples: sum from left to
    right over the values that are not missing, mean as that sum over the
    count, and rounding as times 100, nearest integer with ties to even,
    over 100.  They stand for no particular release of pandas; what is
    proved of [get_summary] holds for every set of kernels. *)
Definition plain_sum (xs : list F64.float) : F64.float :=
  fold_left F64.add (filter Pandas.notna xs) F64.zero.

Definition plain_mean (xs : list F64.float) : F64.float :=
  if (Pandas.count xs =? 0)%Z then F64.nan
  else F64.div (plain_sum xs) (F64.of_Z (Pandas.count xs)).

Definition scaled_round2 (x : F64.float) : F64.float :=
  F64.div (F64.rint (F64.mul x (F64.of_Z 100))) (F64.of_Z 100).

Definition kernels : Pandas.kernels :=
  Pandas.mkKernels plain_sum plain_mean scaled_round2.

End Samples.

(* ================================================================== *)
(** * Part II: properties                                              *)
(* ================================================================== *)

(** ** Facts on strings *)

Section PyStrFacts.
Import PyStr.

Lemma is_space_lower_char (c : ascii) : is_space (lower_char c) = is_space c.
Proof. destruct c as [[] [] [] [] [] [] [] []]; reflexivity. Qed.

Lemma lower_char_idem (c : ascii) : lower_char (lower_char c) = lower_char c.
Proof. destruct c as [[] [] [] [] [] [] [] []]; reflexivity. Qed.

Lemma lower_idem (s : string) : lower (lower s) = lower s.
Proof.
  induction s as [|c s IH]; simpl; [reflexivity|].
  now rewrite lower_char_idem, IH.
Qed.

Lemma is_empty_lower (s : string) : is_empty (lower s) = is_empty s.
Proof. destruct s; reflexivity. Qed.

Lemma is_empty_true (s : string) : is_empty s = true <-> s = EmptyString.
Proof. destruct s; simpl; split; congruence. Qed.

Lemma lower_lstrip (s : string) : lower (lstrip s) = lstrip (lower s).
Proof.
  induction s as [|c s IH]; simpl; [reflexivity|].
  rewrite is_space_lower_char.
  destruct (is_space c); [exact IH | reflexivity].
Qed.

Lemma lower_rstrip (s : string) : lower (rstrip s) = rstrip (lower s).
Proof.
  induction s as [|c s IH]; simpl; [reflexivity|].
  rewrite is_space_lower_char, <- IH, is_empty_lower.
  destruct (is_space c && is_empty (rstrip s)); reflexivity.
Qed.

(** Lowering and trimming commute. *)
Lemma lower_strip (s : string) : lower (strip s) = strip (lower s).
Proof. unfold strip. now rewrite lower_rstrip, lower_lstrip. Qed.

Lemma tight_left_lstrip (s : string) : tight_left (lstrip s) = true.
Proof.
  induction s as [|c s IH]; simpl; [reflexivity|].
  destruct (is_space c) eqn:E; [exact IH|].
  simpl. now rewrite E.
Qed.

Lemma lstrip_tight (s : string) : tight_left s = true -> lstrip s = s.
Proof.
  destruct s as [|c s]; simpl; [reflexivity|].
  now destruct (is_space c).
Qed.

Lemma tight_left_rstrip (s : string) :
  tight_left s = true -> tight_left (rstrip s) = true.
Proof.
  destruct s as [|c s]; simpl; [reflexivity|].
  destruct (is_space c) eqn:E; [discriminate|].
  simpl. now rewrite E.
Qed.

Lemma rstrip_idem (s : string) : rstrip (rstrip s) = rstrip s.
Proof.
  induction s as [|c s IH]; simpl; [reflexivity|].
  destruct (is_space c && is_empty (rstrip s)) eqn:E; [reflexivity|].
  simpl. now rewrite IH, E.
Qed.

Lemma strip_idem (s : string) : strip (strip s) = strip s.
Proof.
  unfold strip.
  rewrite (lstrip_tight (rstrip (lstrip s))).
  - apply rstrip_idem.
  - apply tight_left_rstrip, tight_left_lstrip.
Qed.

Lemma is_empty_rstrip (s : string) : is_empty (rstrip s) = blank s.
Proof.
  induction s as [|c s IH]; simpl; [reflexivity|].
  rewrite IH. now destruct (is_space c), (blank s).
Qed.

Lemma blank_lstrip (s : string) : blank (lstrip s) = blank s.
Proof.
  induction s as [|c s IH]; simpl; [reflexivity|].
  destruct (is_space c) eqn:E; simpl; [exact IH|].
  now rewrite E.
Qed.

(** Trimming leaves nothing exactly of a string of white space. *)
Lemma is_empty_strip (s : string) : is_empty (strip s) = blank s.
Proof. unfold strip. now rewrite is_empty_rstrip, blank_lstrip. Qed.

Lemma strip_empty_iff (s : string) : strip s = EmptyString <-> blank s = true.
Proof. now rewrite <- is_empty_true, is_empty_strip. Qed.

Lemma blank_lower (s : string) : blank (lower s) = blank s.
Proof.
  induction s as [|c s IH]; simpl; [reflexivity|].
  now rewrite is_space_lower_char, IH.
Qed.

(** The normal form of a category is a fixed point of normalisation. *)
Lemma normalise_idem (s : string) :
  strip (lower (strip (lower s))) = strip (lower s).
Proof. now rewrite (lower_strip (lower s)), lower_idem, strip_idem. Qed.

End PyStrFacts.

(** ** The record model *)

Section ModelsFacts.
Import Models.

Variable parse_float : string -> option F64.float.

(** The constructor on arguments of the declared types, case by case. *)
Lemma new_Expense_cases (a : F64.float) (c d dt i t : string) :
  new_Expense a c d dt i t =
    if F64.leb a F64.zero then Raise (ValueError msg_amount)
    else if PyStr.blank d then Raise (ValueError msg_description)
    else Ok (mkExpense a (PyStr.strip (PyStr.lower c)) (PyStr.strip d) dt i t).
Proof.
  unfold new_Expense, __post_init__. simpl.
  now rewrite is_empty_strip.
Qed.

Lemma new_Expense_ok (a : F64.float) (c d dt i t : string) (e : Expense) :
  new_Expense a c d dt i t = Ok e ->
  F64.leb a F64.zero = false /\ PyStr.blank d = false
  /\ e = mkExpense a (PyStr.strip (PyStr.lower c)) (PyStr.strip d) dt i t.
Proof.
  rewrite new_Expense_cases.
  destruct (F64.leb a F64.zero); [discriminate|].
  destruct (PyStr.blank d); [discriminate|].
  intros H. injection H as <-. auto.
Qed.

(** The invariant of a constructed record. *)
Lemma new_Expense_valid (a : F64.float) (c d dt i t : string) (e : Expense) :
  new_Expense a c d dt i t = Ok e -> valid e = true.
Proof.
  intros H. apply new_Expense_ok in H as (Ha & Hd & ->).
  unfold valid. simpl.
  rewrite Ha, normalise_idem, strip_idem, !String.eqb_refl, is_empty_strip, Hd.
  reflexivity.
Qed.

(** The constructor on any arguments gives a record only through the
    typed case. *)
Lemma post_init_ok (a : F64.float) (c d : value) (dt i t : string)
    (e : Expense) :
  __post_init__ a c d dt i t = Ok e ->
  exists c' d', c = VStr c' /\ d = VStr d' /\ new_Expense a c' d' dt i t = Ok e.
Proof.
  intros H. unfold __post_init__ in H.
  destruct (F64.leb a F64.zero) eqn:Ha; [discriminate|].
  destruct c as [| | | |c'| |]; try discriminate.
  destruct d as [| | | |d'| |]; try discriminate.
  exists c', d'. repeat split.
  unfold new_Expense, __post_init__. now rewrite Ha.
Qed.

Lemma from_dict_ok (dflt : defaults) (it : item) (e : Expense) :
  from_dict parse_float dflt it = Ok e -> valid e = true.
Proof.
  destruct it as [data|v]; simpl; [|discriminate].
  destruct (d_amount data) as [ra|]; simpl; [|discriminate].
  destruct (py_float parse_float ra) as [a|]; simpl; [|discriminate].
  destruct (d_category data) as [c|]; simpl; [|discriminate].
  destruct (d_description data) as [d|]; simpl; [|discriminate].
  intros H. apply post_init_ok in H as (c' & d' & _ & _ & H).
  now apply new_Expense_valid in H.
Qed.

(** Reading back what [to_dict] wrote, for a record with the invariant. *)
Lemma from_dict_to_dict (dflt : defaults) (e : Expense) :
  valid e = true -> from_dict parse_float dflt (Obj (to_dict e)) = Ok e.
Proof.
  unfold valid. intros H.
  apply andb_prop in H as [H Hd]. apply andb_prop in H as [H Hs].
  apply andb_prop in H as [Ha Hc].
  apply negb_true_iff in Ha, Hd.
  apply String.eqb_eq in Hc, Hs.
  destruct e as [a c d dt i t]. simpl in *.
  unfold __post_init__. rewrite Ha. simpl.
  rewrite Hs, Hd, Hc. reflexivity.
Qed.

End ModelsFacts.

(** ** The storage *)

Section StorageFacts.
Import Models Storage.

Variable parse_float : string -> option F64.float.

(** Every record that the loading loop returns came out of [from_dict]. *)
Lemma load_loop_valid (gen : nat -> defaults) (data : list item) :
  forall i es ws,
    load_loop parse_float gen i data = Ok (es, ws) ->
    Forall (fun e => valid e = true) es.
Proof.
  induction data as [|it rest IH]; intros i es ws H; simpl in H.
  - injection H as <- <-. constructor.
  - destruct (from_dict parse_float (gen i) it) as [e|x] eqn:Hfd.
    + destruct (load_loop parse_float gen (S i) rest) as [[es' ws']|] eqn:Hr;
        simpl in H; [|discriminate].
      injection H as <- <-. constructor.
      * eapply from_dict_ok; eassumption.
      * eapply IH; eassumption.
    + destruct x; try discriminate;
        (destruct (load_loop parse_float gen (S i) rest) as [[es' ws']|] eqn:Hr;
         simpl in H; [|discriminate]);
        injection H as <- <-; eapply IH; eassumption.
Qed.

(** The loop never lets a [ValueError] or a [KeyError] out. *)
Lemma load_loop_raises (gen : nat -> defaults) (data : list item) :
  forall i x,
    load_loop parse_float gen i data = Raise x ->
    x = TypeError \/ x = AttributeError \/ x = OverflowError
    \/ x = PermissionError.
Proof.
  induction data as [|it rest IH]; intros i x H; simpl in H; [discriminate|].
  destruct (from_dict parse_float (gen i) it) as [e|y] eqn:Hfd.
  - destruct (load_loop parse_float gen (S i) rest) as [[es' ws']|z] eqn:Hr;
      simpl in H; [discriminate|].
    injection H as <-. eapply IH; eassumption.
  - destruct y;
      try (destruct (load_loop parse_float gen (S i) rest) as [[es' ws']|z] eqn:Hr;
           simpl in H; [discriminate|];
           injection H as <-; eapply IH; eassumption);
      injection H as <-; auto.
Qed.

(** Reading the array that [save_expenses] writes gives the records back,
    with no warning, whatever the default expressions evaluate to. *)
Lemma load_loop_saved (gen : nat -> defaults) (es : list Expense) :
  Forall (fun e => valid e = true) es ->
  forall i,
    load_loop parse_float gen i (map (fun e => Obj (to_dict e)) es)
    = Ok (es, []).
Proof.
  induction 1 as [|e es He Hes IH]; intros i; simpl map; [reflexivity|].
  cbn [load_loop].
  rewrite (from_dict_to_dict parse_float (gen i) e He), IH.
  reflexivity.
Qed.

Lemma load_expenses_inv (gen : nat -> defaults) (st : state)
    (es : list Expense) :
  load_expenses parse_float gen st = Ok es ->
  exists data ws,
    _read_data st = Ok data
    /\ load_loop parse_float gen 0 data = Ok (es, ws)
    /\ file st <> Denied.
Proof.
  unfold load_expenses, load_expenses_log, _read_data.
  destruct (file st) as [| | |[data|]] eqn:Hf; simpl; try discriminate.
  - intros H. injection H as <-. exists [], []. now repeat split.
  - intros H. injection H as <-. exists [], []. now repeat split.
  - destruct (load_loop parse_float gen 0 data) as [[es' ws]|] eqn:Hl;
      simpl; [|discriminate].
    intros H. injection H as <-. exists data, ws. now repeat split.
  - intros H. injection H as <-. exists [], []. now repeat split.
Qed.

Lemma load_expenses_valid (gen : nat -> defaults) (st : state)
    (es : list Expense) :
  load_expenses parse_float gen st = Ok es ->
  Forall (fun e => valid e = true) es.
Proof.
  intros H. apply load_expenses_inv in H as (data & ws & _ & H & _).
  eapply load_loop_valid; eassumption.
Qed.

Lemma load_expenses_raises (gen : nat -> defaults) (st : state) (x : exn) :
  load_expenses parse_float gen st = Raise x ->
  x = TypeError \/ x = AttributeError \/ x = OverflowError
  \/ x = PermissionError.
Proof.
  unfold load_expenses, load_expenses_log, _read_data.
  destruct (file st) as [| | |[data|]]; simpl; try discriminate.
  - intros H. injection H as <-. auto.
  - destruct (load_loop parse_float gen 0 data) as [[es' ws]|y] eqn:Hl;
      simpl; [discriminate|].
    intros H. injection H as <-. eapply load_loop_raises; eassumption.
Qed.

(** What a successful [save_expenses] leaves, and what loading it gives. *)
Lemma save_expenses_ok (st : state) (es : list Expense) :
  file st <> Denied ->
  save_expenses st es
  = Ok (mkState (Json (JArray (map (fun e => Obj (to_dict e)) es)))
                (S (writes st))).
Proof.
  unfold save_expenses, _write_data. now destruct (file st).
Qed.

Lemma load_saved (gen : nat -> defaults) (es : list Expense) (n : nat) :
  Forall (fun e => valid e = true) es ->
  load_expenses_log parse_float gen
    (mkState (Json (JArray (map (fun e => Obj (to_dict e)) es))) n)
  = Ok (es, []).
Proof.
  intros H. unfold load_expenses_log. simpl.
  now apply load_loop_saved.
Qed.

Lemma save_expenses_raises (st : state) (es : list Expense) (x : exn) :
  save_expenses st es = Raise x -> x = PermissionError.
Proof.
  unfold save_expenses, _write_data.
  destruct (file st); try discriminate. now intros [= <-].
Qed.

End StorageFacts.

(** ** Construction and validation *)

Section Construction.
Import Models.
Open Scope string_scope.

Lemma validation_error_new_Expense (a : F64.float) (c d dt i t : string) :
  is_validation_error (new_Expense a c d dt i t) = true <->
  F64.leb a F64.zero = true \/ PyStr.strip d = "".
Proof.
  rewrite new_Expense_cases, strip_empty_iff.
  destruct (F64.leb a F64.zero); simpl.
  - intuition.
  - destruct (PyStr.blank d); simpl; intuition discriminate.
Qed.

Lemma new_Expense_ok_or_validation (a : F64.float) (c d dt i t : string) :
  is_ok (new_Expense a c d dt i t)
  = negb (is_validation_error (new_Expense a c d dt i t)).
Proof.
  rewrite new_Expense_cases.
  destruct (F64.leb a F64.zero); [reflexivity|].
  now destruct (PyStr.blank d).
Qed.

Lemma from_dict_typed (parse_float : string -> option F64.float)
    (dflt : defaults) (v : value) (a : F64.float) (c d : string)
    (dt i t : option string) :
  py_float parse_float v = Ok a ->
  from_dict parse_float dflt
    (Obj (mkDict (Some v) (Some (VStr c)) (Some (VStr d)) dt i t))
  = new_Expense a c d (get dt (today dflt)) (get i (uuid8 dflt))
                (get t (now_iso dflt)).
Proof. intros H. simpl. now rewrite H. Qed.

Lemma validation_error_add_expense
    (parse_float : string -> option F64.float) (gen : nat -> defaults)
    (dflt : defaults) (st : Storage.state) (a : F64.float) (c d : string)
    (dt : option string) :
  is_validation_error
    (Manager.add_expense parse_float gen dflt st a c d dt)
  = is_validation_error
      (new_Expense a c d (Manager.or_default dt (today dflt)) (uuid8 dflt)
                   (now_iso dflt)).
Proof.
  unfold Manager.add_expense.
  destruct (new_Expense a c d _ _ _) as [e|x]; [|reflexivity].
  simpl. unfold Storage.add_expense.
  destruct (Storage.load_expenses parse_float gen st) as [es|x] eqn:Hl; simpl.
  - destruct (Storage.save_expenses st (es ++ [e])) as [st'|x] eqn:Hs;
      simpl; [reflexivity|].
    now apply save_expenses_raises in Hs as ->.
  - apply load_expenses_raises in Hl as [->|[->|[->| ->]]]; reflexivity.
Qed.

End Construction.

(** C1. Constructing an Expense, directly, through
    [ExpenseManager.add_expense] or through [Expense.from_dict] on a mapping
    whose amount [float] converts and whose category and description are
    strings, raises
    the validation error ([ValueError]) if and only if [amount <= 0] or the
    description is empty after trimming, and raises nothing else.  An amount
    of 0 or of -5 fails; an amount of 0.01 succeeds; a description of white
    space only fails; the description ["  lunch  "] succeeds and is stored
    as ["lunch"]. *)
Theorem construction_validates_amount_and_description :
  (forall a c d dt i t,
      (is_validation_error (Models.new_Expense a c d dt i t) = true <->
       F64.leb a F64.zero = true \/ PyStr.strip d = ""%string)
      /\ is_ok (Models.new_Expense a c d dt i t)
         = negb (is_validation_error (Models.new_Expense a c d dt i t)))
  /\ (forall parse_float gen dflt st a c d dt,
         is_validation_error
           (Manager.add_expense parse_float gen dflt st a c d dt) = true <->
         F64.leb a F64.zero = true \/ PyStr.strip d = ""%string)
  /\ (forall parse_float dflt v a c d dt i t,
         Models.py_float parse_float v = Ok a ->
         (is_validation_error
            (Models.from_dict parse_float dflt
               (Models.Obj
                  (Models.mkDict (Some v) (Some (Models.VStr c))
                                 (Some (Models.VStr d)) dt i t))) = true <->
          F64.leb a F64.zero = true \/ PyStr.strip d = ""%string))
  /\ (forall c d dt i t,
         Models.new_Expense (F64.of_Z 0) c d dt i t
         = Raise (ValueError Models.msg_amount)
         /\ Models.new_Expense (F64.of_Z (-5)) c d dt i t
            = Raise (ValueError Models.msg_amount))
  /\ (forall c dt i t,
         Models.new_Expense (F64.dec 1 2) c "lunch" dt i t
         = Ok (Models.mkExpense (F64.dec 1 2) (PyStr.strip (PyStr.lower c))
                                "lunch" dt i t))
  /\ (forall a c dt i t,
         is_validation_error (Models.new_Expense a c "   " dt i t) = true)
  /\ (forall c dt i t,
         Models.new_Expense (F64.of_Z 12) c "  lunch  " dt i t
         = Ok (Models.mkExpense (F64.of_Z 12) (PyStr.strip (PyStr.lower c))
                                "lunch" dt i t)).
Proof.
  repeat split.
  - apply validation_error_new_Expense.
  - apply validation_error_new_Expense.
  - apply new_Expense_ok_or_validation.
  - rewrite validation_error_add_expense. apply validation_error_new_Expense.
  - rewrite validation_error_add_expense. apply validation_error_new_Expense.
  - rewrite (@from_dict_typed _ dflt _ _ c d dt i t H).
    apply validation_error_new_Expense.
  - rewrite (@from_dict_typed _ dflt _ _ c d dt i t H).
    apply validation_error_new_Expense.
  - intros. apply validation_error_new_Expense. now right.
Qed.

Lemma construction_validates_amount_and_description_witness :
  is_validation_error
    (Models.from_dict (fun _ => None) (Samples.clock 0)
       (Models.Obj
          (Models.mkDict (Some (Models.VInt 0)) (Some (Models.VStr "food"))
                         (Some (Models.VStr "lunch")) None None None))) = true
  <-> F64.leb (F64.of_Z 0) F64.zero = true \/ PyStr.strip "lunch" = ""%string.
Proof.
  apply (proj1 (proj2 (proj2 construction_validates_amount_and_description))
           (fun _ => None) (Samples.clock 0) (Models.VInt 0) (F64.of_Z 0)).
  reflexivity.
Defined.

(** ** Sorting *)

Section SortFacts.
Variable A : Type.
Variable before : A -> A -> bool.

Lemma insert_perm (x : A) (l : list A) :
  Permutation (x :: l) (Sort.insert before x l).
Proof.
  induction l as [|h t IH]; simpl; [reflexivity|].
  destruct (before x h); [reflexivity|].
  rewrite perm_swap. now apply perm_skip.
Qed.

Lemma sort_perm (l : list A) : Permutation l (Sort.sort before l).
Proof.
  induction l as [|x l IH]; simpl; [reflexivity|].
  rewrite <- insert_perm. now apply perm_skip.
Qed.

Lemma sort_length (l : list A) :
  List.length (Sort.sort before l) = List.length l.
Proof. symmetry. apply Permutation_length, sort_perm. Qed.

Lemma sort_In (x : A) (l : list A) : In x (Sort.sort before l) <-> In x l.
Proof.
  split; apply Permutation_in; [symmetry|]; apply sort_perm.
Qed.

Lemma sort_Forall (P : A -> Prop) (l : list A) :
  Forall P l -> Forall P (Sort.sort before l).
Proof.
  rewrite !Forall_forall. intros H x Hx. apply H. now apply sort_In.
Qed.

(** Any two elements can be put in order. *)
Hypothesis before_total : forall a b, before a b = false -> before b a = true.

Lemma insert_hdrel (x a : A) (l : list A) :
  before a x = true ->
  HdRel (fun a b => before a b = true) a l ->
  HdRel (fun a b => before a b = true) a (Sort.insert before x l).
Proof.
  intros Hax Hl. destruct l as [|h t]; simpl.
  - now constructor.
  - destruct (before x h); constructor; [assumption|].
    now inversion Hl.
Qed.

Lemma insert_sorted (x : A) (l : list A) :
  Sorted (fun a b => before a b = true) l ->
  Sorted (fun a b => before a b = true) (Sort.insert before x l).
Proof.
  induction 1 as [|h t Ht IH Hh]; simpl.
  - repeat constructor.
  - destruct (before x h) eqn:E.
    + constructor; [now constructor|]. now constructor.
    + constructor; [exact IH|].
      apply insert_hdrel; [|exact Hh].
      now apply before_total.
Qed.

Lemma sort_sorted (l : list A) :
  Sorted (fun a b => before a b = true) (Sort.sort before l).
Proof.
  induction l as [|x l IH]; simpl; [constructor|].
  now apply insert_sorted.
Qed.

End SortFacts.

(** ** Listing *)

Section ListFacts.
Import Models.

Lemma filter_filter (A : Type) (f g : A -> bool) (l : list A) :
  filter g (filter f l) = filter (fun x => f x && g x) l.
Proof.
  induction l as [|x l IH]; simpl; [reflexivity|].
  destruct (f x); simpl; [|exact IH].
  destruct (g x); now rewrite IH.
Qed.

Lemma filter_true (A : Type) (l : list A) : filter (fun _ => true) l = l.
Proof. induction l as [|x l IH]; simpl; congruence. Qed.

(** The three conditional filters of [list_expenses] are one filter by
    [Spec.keeps], an empty string standing for no filter. *)
Lemma filters_keep (c s e : option string) (es : list Expense) :
  Manager.if_given e
    (fun end_date expenses =>
       filter (fun x => PyStr.le (date x) end_date) expenses)
    (Manager.if_given s
       (fun start_date expenses =>
          filter (fun x => PyStr.ge (date x) start_date) expenses)
       (Manager.if_given c
          (fun category expenses =>
             let category := PyStr.strip (PyStr.lower category) in
             filter (fun x => String.eqb (Models.category x) category)
                    expenses)
          es))
  = filter (Spec.keeps (Spec.given c) (Spec.given s) (Spec.given e)) es.
Proof.
  assert (H1 : forall (o : option string) (f : string -> Expense -> bool)
                      (l : list Expense),
             Manager.if_given o (fun v xs => filter (f v) xs) l
             = filter (fun x => match Spec.given o with
                                | Some v => f v x
                                | None => true
                                end) l).
  { intros [[|a v]|] f l; simpl; auto using filter_true.
    all: symmetry; apply filter_true. }
  rewrite (H1 e (fun v x => PyStr.le (date x) v)).
  rewrite (H1 s (fun v x => PyStr.ge (date x) v)).
  cbv zeta.
  rewrite (H1 c (fun v x => String.eqb (Models.category x)
                                        (PyStr.strip (PyStr.lower v)))).
  rewrite !filter_filter.
  apply filter_ext. intros x. unfold Spec.keeps, PyStr.le, PyStr.ge.
  destruct (Spec.given c) as [v|]; [rewrite lower_strip|];
    now rewrite ?andb_assoc.
Qed.

Lemma date_desc_total (a b : Expense) :
  Manager.date_desc a b = false -> Manager.date_desc b a = true.
Proof.
  unfold Manager.date_desc, PyStr.ge. intros H.
  destruct (String.leb_total (date b) (date a)) as [H'|H']; congruence.
Qed.

End ListFacts.

(** C3, as the code has it.  For every stored collection and every
    combination of optional filters, [list_expenses] returns exactly the
    records whose category equals the lowercased, trimmed requested
    category and whose date lies between [start_date] and [end_date]
    (lexicographic comparison, both ends included), each test being made
    when its filter is given and is not the empty string; the records come
    sorted by date, latest first, cut to the first [limit] records when
    [limit] is positive and uncut when it is absent or not positive. *)
Theorem list_expenses_filters_sorts_limits
    (parse_float : string -> option F64.float) (gen : nat -> Models.defaults)
    (st : Storage.state) (es : list Models.Expense)
    (category start_date end_date : option string) (limit : option Z) :
  Storage.load_expenses parse_float gen st = Ok es ->
  exists full : list Models.Expense,
    Manager.list_expenses parse_float gen st category start_date end_date limit
    = Ok (match limit with
          | Some n => if (0 <? n)%Z then firstn (Z.to_nat n) full else full
          | None => full
          end)
    /\ Permutation full
         (filter (Spec.keeps (Spec.given category) (Spec.given start_date)
                             (Spec.given end_date)) es)
    /\ Sorted (fun a b => String.leb (Models.date b) (Models.date a) = true)
              full.
Proof.
  intros Hload. unfold Manager.list_expenses. rewrite Hload. cbn [bind].
  rewrite filters_keep.
  eexists. split; [reflexivity|]. split.
  - symmetry. apply sort_perm.
  - apply (sort_sorted Manager.date_desc date_desc_total).
Qed.

Lemma list_expenses_filters_sorts_limits_witness :
  exists full : list Models.Expense,
    Manager.list_expenses (fun _ => None) Samples.clock Samples.store_lunch
      (Some "Food "%string) (Some "2024-01-01"%string)
      (Some "2024-01-31"%string) (Some 5%Z)
    = Ok (firstn 5 full)
    /\ Permutation full
         (filter (Spec.keeps (Some "Food "%string) (Some "2024-01-01"%string)
                             (Some "2024-01-31"%string)) [Samples.lunch])
    /\ Sorted (fun a b => String.leb (Models.date b) (Models.date a) = true)
              full.
Proof.
  apply (list_expenses_filters_sorts_limits (fun _ => None) Samples.clock
           Samples.store_lunch (es := [Samples.lunch])
           (Some "Food "%string) (Some "2024-01-01"%string)
           (Some "2024-01-31"%string) (Some 5%Z)).
  reflexivity.
Defined.

(** C3 as it is worded fails where a filter is given as the empty string:
    the code then applies no filter.  With the category [""] the stored
    record of category ["food"] is returned, and with the end date [""] the
    record dated ["2024-01-15"] is returned. *)
Lemma list_expenses_empty_string_filter :
  (forall parse_float gen,
      Manager.list_expenses parse_float gen Samples.store_lunch
        (Some ""%string) None None None = Ok [Samples.lunch])
  /\ Spec.keeps (Some ""%string) None None Samples.lunch = false
  /\ (forall parse_float gen,
         Manager.list_expenses parse_float gen Samples.store_lunch
           None None (Some ""%string) None = Ok [Samples.lunch])
  /\ Spec.keeps None None (Some ""%string) Samples.lunch = false.
Proof. repeat split. Qed.

(** The date range of the specification's example: of the records dated
    2023-12-31, 2024-01-15 and 2024-02-01 only the second is listed. *)
Example list_expenses_january parse_float gen :
  Manager.list_expenses parse_float gen
    (Samples.stored [Samples.expense 3 "food" "2023-12-31" "00000001";
                     Samples.expense 4 "food" "2024-01-15" "00000002";
                     Samples.expense 5 "food" "2024-02-01" "00000003"])
    None (Some "2024-01-01"%string) (Some "2024-01-31"%string) None
  = Ok [Samples.expense 4 "food" "2024-01-15" "00000002"].
Proof. reflexivity. Qed.

(** ** Round trip and normal forms *)

(** C5. For every Expense that the constructor returns, serialising it with
    [to_dict] and deserialising the result with [from_dict] gives a record
    equal to it in all six fields, whatever the default expressions of
    [from_dict] evaluate to. *)
Theorem to_dict_from_dict_round_trip
    (parse_float : string -> option F64.float) (dflt : Models.defaults)
    (amount : F64.float) (category description : Models.value)
    (date id created_at : string) (e : Models.Expense) :
  Models.__post_init__ amount category description date id created_at = Ok e ->
  Models.from_dict parse_float dflt (Models.Obj (Models.to_dict e)) = Ok e.
Proof.
  intros H. apply post_init_ok in H as (c & d & _ & _ & H).
  apply from_dict_to_dict. eapply new_Expense_valid; eassumption.
Qed.

Lemma to_dict_from_dict_round_trip_witness :
  Models.from_dict (fun _ => None) (Samples.clock 0)
    (Models.Obj (Models.to_dict Samples.lunch))
  = Ok Samples.lunch.
Proof.
  apply (to_dict_from_dict_round_trip (fun _ => None) (Samples.clock 0)
           (F64.of_Z 12) (Models.VStr " Food ") (Models.VStr "  lunch  ")
           "2024-01-15" "a1b2c3d4" "2024-01-15T12:30:00").
  reflexivity.
Defined.

Section Normalised.
Import Models.

Variable parse_float : string -> option F64.float.
Variable gen : nat -> defaults.

Lemma valid_normalised (e : Expense) :
  valid e = true ->
  PyStr.lower (PyStr.strip (category e)) = category e.
Proof.
  unfold valid. intros H.
  apply andb_prop in H as [H _]. apply andb_prop in H as [H _].
  apply andb_prop in H as [_ H]. apply String.eqb_eq in H.
  now rewrite lower_strip.
Qed.

Lemma Forall_valid_normalised (es : list Expense) :
  Forall (fun e => valid e = true) es ->
  Forall (fun e => PyStr.lower (PyStr.strip (category e)) = category e) es.
Proof. apply Forall_impl, valid_normalised. Qed.

Lemma list_expenses_valid (st : Storage.state) (c s e : option string)
    (limit : option Z) (es : list Expense) :
  Manager.list_expenses parse_float gen st c s e limit = Ok es ->
  Forall (fun e => valid e = true) es.
Proof.
  unfold Manager.list_expenses.
  destruct (Storage.load_expenses parse_float gen st) as [all|] eqn:Hl;
    simpl; [|discriminate].
  intros [= <-]. apply load_expenses_valid in Hl.
  rewrite filters_keep.
  assert (H : Forall (fun e => valid e = true)
                (Manager.sort_by_date_desc
                   (filter (Spec.keeps (Spec.given c) (Spec.given s)
                                       (Spec.given e)) all))).
  { apply sort_Forall. rewrite Forall_forall in *.
    intros x Hx. apply filter_In in Hx as [Hx _]. auto. }
  unfold Manager.apply_limit.
  destruct limit as [n|]; [|exact H].
  destruct (0 <? n)%Z; [|exact H].
  rewrite Forall_forall in *. intros x Hx. apply H.
  rewrite <- (firstn_skipn (Z.to_nat n)). apply in_or_app. now left.
Qed.

Lemma get_expense_by_id_valid (st : Storage.state) (x : string)
    (e : Expense) :
  Storage.get_expense_by_id parse_float gen st x = Ok (Some e) ->
  valid e = true.
Proof.
  unfold Storage.get_expense_by_id.
  destruct (Storage.load_expenses parse_float gen st) as [all|] eqn:Hl;
    simpl; [|discriminate].
  intros [= H]. apply find_some in H as [H _].
  apply load_expenses_valid in Hl. rewrite Forall_forall in Hl. auto.
Qed.

Lemma add_expense_valid (dflt : defaults) (st st' : Storage.state)
    (a : F64.float) (c d : string) (dt : option string) (e : Expense) :
  Manager.add_expense parse_float gen dflt st a c d dt = Ok (e, st') ->
  valid e = true
  /\ category e = PyStr.lower (PyStr.strip c)
  /\ exists es,
       Storage.load_expenses parse_float gen st = Ok es
       /\ st' = Storage.mkState
                  (Storage.Json
                     (Storage.JArray
                        (map (fun e => Obj (to_dict e)) (es ++ [e]))))
                  (S (Storage.writes st)).
Proof.
  unfold Manager.add_expense.
  destruct (new_Expense a c d _ _ _) as [e0|] eqn:Hn; simpl; [|discriminate].
  unfold Storage.add_expense.
  destruct (Storage.load_expenses parse_float gen st) as [es|] eqn:Hl; simpl;
    [|discriminate].
  destruct (load_expenses_inv _ _ _ Hl) as (_ & _ & _ & _ & Hd).
  rewrite save_expenses_ok by exact Hd. simpl.
  intros [= <- <-]. split.
  - eapply new_Expense_valid; eassumption.
  - split.
    + apply new_Expense_ok in Hn as (_ & _ & ->). simpl.
      now rewrite lower_strip.
    + now exists es.
Qed.

End Normalised.

(** C6. Every successfully constructed Expense stores the category
    lowercased and trimmed: the stored category is [lower (strip input)].
    The categories ["Food"] and [" food "] give the same record.  The normal
    form is kept by every operation: the record that [add_expense] returns
    and stores, and every record that [load_expenses], [list_expenses] and
    [get_expense_by_id] return, has a category equal to its own lowercased,
    trimmed form. *)
Theorem category_is_normalised :
  (forall a c d dt i t e,
      Models.new_Expense a c d dt i t = Ok e ->
      Models.category e = PyStr.lower (PyStr.strip c))
  /\ (forall a d dt i t,
         Models.new_Expense a "Food" d dt i t
         = Models.new_Expense a " food " d dt i t)
  /\ (forall parse_float gen st es,
         Storage.load_expenses parse_float gen st = Ok es ->
         Forall (fun e => PyStr.lower (PyStr.strip (Models.category e))
                          = Models.category e) es)
  /\ (forall parse_float gen st c s e limit es,
         Manager.list_expenses parse_float gen st c s e limit = Ok es ->
         Forall (fun e => PyStr.lower (PyStr.strip (Models.category e))
                          = Models.category e) es)
  /\ (forall parse_float gen st x e,
         Storage.get_expense_by_id parse_float gen st x = Ok (Some e) ->
         PyStr.lower (PyStr.strip (Models.category e)) = Models.category e)
  /\ (forall parse_float gen dflt st a c d dt e st',
         Manager.add_expense parse_float gen dflt st a c d dt = Ok (e, st') ->
         Models.category e = PyStr.lower (PyStr.strip c)
         /\ exists es,
              Storage.load_expenses parse_float gen st' = Ok (es ++ [e])).
Proof.
  split; [|split; [|split; [|split; [|split]]]].
  - intros a c d dt i t e H.
    apply new_Expense_ok in H as (_ & _ & ->). simpl.
    now rewrite lower_strip.
  - intros. now rewrite !new_Expense_cases.
  - intros parse_float gen st es H.
    eapply Forall_valid_normalised, load_expenses_valid, H.
  - intros parse_float gen st c s e limit es H.
    eapply Forall_valid_normalised, list_expenses_valid, H.
  - intros parse_float gen st x e H.
    eapply valid_normalised, get_expense_by_id_valid, H.
  - intros parse_float gen dflt st a c d dt e st' H.
    apply add_expense_valid in H as (He & Hc & es & Hl & ->).
    split; [exact Hc|]. exists es.
    unfold Storage.load_expenses. rewrite load_saved; [reflexivity|].
    apply Forall_app. split.
    + eapply load_expenses_valid, Hl.
    + now repeat constructor.
Qed.

Lemma category_is_normalised_witness :
  Models.category Samples.lunch = PyStr.lower (PyStr.strip " Food ").
Proof.
  apply (proj1 category_is_normalised (F64.of_Z 12) " Food "%string
           "  lunch  "%string "2024-01-15"%string "a1b2c3d4"%string
           "2024-01-15T12:30:00"%string).
  reflexivity.
Defined.

(** C8 as it is worded fails: the constructor does not look at the category
    beyond normalising it, and a category of white space only is stored as
    the empty string. *)
Lemma empty_category_is_accepted :
  Models.new_Expense (F64.of_Z 12) "   " "lunch" "2024-01-15" "a1b2c3d4"
                     "2024-01-15T12:30:00"
  = Ok (Models.mkExpense (F64.of_Z 12) "" "lunch" "2024-01-15" "a1b2c3d4"
                         "2024-01-15T12:30:00").
Proof. reflexivity. Qed.

(** C8, as the code has it.  For every successfully constructed Expense the
    stored category is the lowercased, trimmed input; it is the empty string
    exactly when the input category is empty or holds white space only, and
    construction accepts such a category. *)
Theorem category_empty_iff_blank
    (a : F64.float) (c d dt i t : string) (e : Models.Expense) :
  Models.new_Expense a c d dt i t = Ok e ->
  Models.category e = PyStr.lower (PyStr.strip c)
  /\ (Models.category e = ""%string <-> PyStr.blank c = true).
Proof.
  intros H. apply new_Expense_ok in H as (_ & _ & ->). simpl.
  split; [now rewrite lower_strip|].
  now rewrite strip_empty_iff, blank_lower.
Qed.

Lemma category_empty_iff_blank_witness :
  Models.category
    (Models.mkExpense (F64.of_Z 12) "" "lunch" "2024-01-15" "a1b2c3d4"
                      "2024-01-15T12:30:00")
  = PyStr.lower (PyStr.strip "   ")
  /\ (Models.category
        (Models.mkExpense (F64.of_Z 12) "" "lunch" "2024-01-15" "a1b2c3d4"
                          "2024-01-15T12:30:00") = ""%string
      <-> PyStr.blank "   " = true).
Proof.
  apply (category_empty_iff_blank (F64.of_Z 12) "   " "lunch" "2024-01-15"
           "a1b2c3d4" "2024-01-15T12:30:00").
  reflexivity.
Defined.

(** ** Loading *)

(** What [load_expenses] does on the files it tolerates: an absent or
    garbled file and a document that is not an array give no record, and of
    one valid record and one with a negative amount the valid one is
    returned and the other reported. *)
Lemma load_expenses_tolerated parse_float gen n :
  Storage.load_expenses parse_float gen (Storage.mkState Storage.Absent n)
  = Ok []
  /\ Storage.load_expenses parse_float gen (Storage.mkState Storage.Garbled n)
     = Ok []
  /\ Storage.load_expenses parse_float gen
       (Storage.mkState (Storage.Json Storage.JOther) n) = Ok []
  /\ Storage.load_expenses_log parse_float gen
       (Storage.mkState
          (Storage.Json
             (Storage.JArray
                [Models.Obj (Models.to_dict Samples.lunch);
                 Models.Obj
                   (Models.mkDict (Some (Models.VFloat (F64.of_Z (-5))))
                      (Some (Models.VStr "food")) (Some (Models.VStr "lunch"))
                      (Some "2024-01-16"%string) (Some "b2c3d4e5"%string)
                      (Some "2024-01-16T08:00:00"%string))])) n)
     = Ok ([Samples.lunch], [ValueError Models.msg_amount]).
Proof. repeat split. Qed.

(** C2 does not hold of the code: [load_expenses] lets through every
    exception that is neither a [ValueError] nor a [KeyError], and
    [_read_data] every failure of [open] other than [FileNotFoundError].
    A stored record whose amount is [null] raises [TypeError], an element
    that is not an object or a category that is a number raises
    [AttributeError], and a file that cannot be opened raises
    [PermissionError]. *)
Theorem load_expenses_lets_exceptions_through :
  (forall parse_float gen n,
      Storage.load_expenses parse_float gen
        (Storage.mkState
           (Storage.Json
              (Storage.JArray
                 [Models.Obj
                    (Models.mkDict (Some Models.VNone)
                       (Some (Models.VStr "food")) (Some (Models.VStr "lunch"))
                       None None None)])) n)
      = Raise TypeError)
  /\ (forall parse_float gen n,
         Storage.load_expenses parse_float gen
           (Storage.mkState
              (Storage.Json
                 (Storage.JArray
                    [Models.Obj (Models.to_dict Samples.lunch);
                     Models.NotObj (Models.VInt 5)])) n)
         = Raise AttributeError)
  /\ (forall parse_float gen n,
         Storage.load_expenses parse_float gen
           (Storage.mkState
              (Storage.Json
                 (Storage.JArray
                    [Models.Obj
                       (Models.mkDict (Some (Models.VFloat (F64.of_Z 12)))
                          (Some (Models.VInt 7)) (Some (Models.VStr "lunch"))
                          None None None)])) n)
         = Raise AttributeError)
  /\ (forall parse_float gen n,
         Storage.load_expenses parse_float gen
           (Storage.mkState Storage.Denied n)
         = Raise PermissionError).
Proof. repeat split. Qed.

(** ** Deleting *)

Section DeleteFacts.
Import Models.

Variable parse_float : string -> option F64.float.
Variable gen : nat -> defaults.

Lemma filter_length_lt (A : Type) (f : A -> bool) (l : list A) :
  Nat.ltb (List.length (filter f l)) (List.length l)
  = existsb (fun x => negb (f x)) l.
Proof.
  induction l as [|x l IH]; simpl; [reflexivity|].
  destruct (f x); simpl.
  - exact IH.
  - apply Nat.ltb_lt. pose proof (filter_length_le f l). lia.
Qed.

(** The two outcomes of [delete_expense] on a collection that loads. *)
Lemma delete_expense_cases (st : Storage.state) (x : string)
    (es : list Expense) :
  Storage.load_expenses parse_float gen st = Ok es ->
  Storage.delete_expense parse_float gen st x
  = if existsb (fun e => String.eqb (id e) x) es
    then Ok (true,
             Storage.mkState
               (Storage.Json
                  (Storage.JArray
                     (map (fun e => Obj (to_dict e))
                          (filter (fun e => negb (String.eqb (id e) x)) es))))
               (S (Storage.writes st)))
    else Ok (false, st).
Proof.
  intros Hl. unfold Storage.delete_expense. rewrite Hl. cbn [bind].
  rewrite filter_length_lt.
  replace (existsb (fun e => negb (negb (String.eqb (id e) x))) es)
    with (existsb (fun e => String.eqb (id e) x) es)
    by (clear Hl; induction es as [|e l IH]; simpl;
        [reflexivity | now rewrite negb_involutive, IH]).
  destruct (existsb _ es); [|reflexivity].
  destruct (load_expenses_inv _ _ _ Hl) as (_ & _ & _ & _ & Hd).
  rewrite save_expenses_ok by exact Hd. reflexivity.
Qed.

Lemma existsb_id_false (x : string) (es : list Expense) :
  (forall e, In e es -> id e <> x) ->
  existsb (fun e => String.eqb (id e) x) es = false.
Proof.
  intros H. apply not_true_is_false. intros Hex.
  apply existsb_exists in Hex as (e & He & Hx).
  apply String.eqb_eq in Hx. exact (H e He Hx).
Qed.

Lemma existsb_id_true (x : string) (es : list Expense) :
  (exists e, In e es /\ id e = x) ->
  existsb (fun e => String.eqb (id e) x) es = true.
Proof.
  intros (e & He & Hx). apply existsb_exists. exists e.
  split; [exact He|]. now apply String.eqb_eq.
Qed.

Lemma filter_valid (f : Expense -> bool) (es : list Expense) :
  Forall (fun e => valid e = true) es ->
  Forall (fun e => valid e = true) (filter f es).
Proof.
  rewrite !Forall_forall. intros H e He.
  apply filter_In in He as [He _]. auto.
Qed.

End DeleteFacts.

(** C7. Deleting an id that no stored record carries, through the storage
    or through the manager, returns false and leaves the storage as it was:
    the file is the same, no write was made, and the collection loaded
    afterwards is the one loaded before, with the same number of records. *)
Theorem delete_unknown_id_changes_nothing
    (parse_float : string -> option F64.float) (gen : nat -> Models.defaults)
    (st : Storage.state) (es : list Models.Expense) (x : string) :
  Storage.load_expenses parse_float gen st = Ok es ->
  (forall e, In e es -> Models.id e <> x) ->
  exists st',
    Storage.delete_expense parse_float gen st x = Ok (false, st')
    /\ Manager.delete_expense parse_float gen st x = Ok (false, st')
    /\ Storage.file st' = Storage.file st
    /\ Storage.writes st' = Storage.writes st
    /\ exists es',
         Storage.load_expenses parse_float gen st' = Ok es'
         /\ List.length es' = List.length es.
Proof.
  intros Hl Hx. exists st.
  unfold Manager.delete_expense.
  rewrite (delete_expense_cases _ _ _ x Hl), existsb_id_false by exact Hx.
  repeat split. now exists es.
Qed.

Lemma delete_unknown_id_changes_nothing_witness :
  exists st',
    Storage.delete_expense (fun _ => None) Samples.clock Samples.store_lunch
      "ffffffff" = Ok (false, st')
    /\ Manager.delete_expense (fun _ => None) Samples.clock Samples.store_lunch
         "ffffffff" = Ok (false, st')
    /\ Storage.file st' = Storage.file Samples.store_lunch
    /\ Storage.writes st' = Storage.writes Samples.store_lunch
    /\ exists es',
         Storage.load_expenses (fun _ => None) Samples.clock st' = Ok es'
         /\ List.length es' = List.length [Samples.lunch].
Proof.
  apply (delete_unknown_id_changes_nothing (fun _ => None) Samples.clock
           Samples.store_lunch (es := [Samples.lunch]) (x := "ffffffff")).
  - reflexivity.
  - intros e [<-|[]]. discriminate.
Defined.

(** C9. If one or several stored records carry the id, a single call of
    [delete_expense] returns true and the collection stored afterwards is
    the one loaded before without every record of that id: no record of
    that id is left, and every other record is kept, in order. *)
Theorem delete_removes_every_match
    (parse_float : string -> option F64.float)
    (gen gen' : nat -> Models.defaults)
    (st : Storage.state) (es : list Models.Expense) (x : string) :
  Storage.load_expenses parse_float gen st = Ok es ->
  (exists e, In e es /\ Models.id e = x) ->
  exists st',
    Storage.delete_expense parse_float gen st x = Ok (true, st')
    /\ Storage.load_expenses parse_float gen' st'
       = Ok (filter (fun e => negb (String.eqb (Models.id e) x)) es)
    /\ forall e,
         In e (filter (fun e => negb (String.eqb (Models.id e) x)) es)
         <-> In e es /\ Models.id e <> x.
Proof.
  intros Hl Hx.
  rewrite (delete_expense_cases _ _ _ x Hl), existsb_id_true by exact Hx.
  eexists. split; [reflexivity|]. split.
  - unfold Storage.load_expenses. rewrite load_saved; [reflexivity|].
    apply filter_valid. eapply load_expenses_valid, Hl.
  - intros e. rewrite filter_In, negb_true_iff.
    rewrite <- String.eqb_neq. reflexivity.
Qed.

Lemma delete_removes_every_match_witness :
  exists st',
    Storage.delete_expense (fun _ => None) Samples.clock
      (Samples.stored [Samples.expense 3 "food" "2024-01-02" "d0d0d0d0";
                       Samples.lunch;
                       Samples.expense 7 "taxi" "2024-01-20" "d0d0d0d0"])
      "d0d0d0d0" = Ok (true, st')
    /\ Storage.load_expenses (fun _ => None) Samples.clock st'
       = Ok [Samples.lunch]
    /\ forall e,
         In e [Samples.lunch]
         <-> In e [Samples.expense 3 "food" "2024-01-02" "d0d0d0d0";
                   Samples.lunch;
                   Samples.expense 7 "taxi" "2024-01-20" "d0d0d0d0"]
             /\ Models.id e <> "d0d0d0d0"%string.
Proof.
  apply (@delete_removes_every_match (fun _ => None) Samples.clock
           Samples.clock
           (Samples.stored
              [Samples.expense 3 "food" "2024-01-02" "d0d0d0d0";
               Samples.lunch;
               Samples.expense 7 "taxi" "2024-01-20" "d0d0d0d0"])
           [Samples.expense 3 "food" "2024-01-02" "d0d0d0d0";
            Samples.lunch;
            Samples.expense 7 "taxi" "2024-01-20" "d0d0d0d0"]
           "d0d0d0d0"%string).
  - reflexivity.
  - exists (Samples.expense 3 "food" "2024-01-02" "d0d0d0d0").
    split; [now left | reflexivity].
Defined.

(** C10. A successful [delete_expense] writes the file anew from the
    records that were loaded: the file then holds the mapping forms of the
    loaded records other than the deleted ones and nothing else.  Every
    element of the new file deserialises, loading it prints no warning, and
    an element of the old file that failed to deserialise with a
    [ValueError] or a [KeyError] is not in the new file. *)
Theorem delete_drops_skipped_entries
    (parse_float : string -> option F64.float)
    (gen gen' : nat -> Models.defaults)
    (st : Storage.state) (es : list Models.Expense) (x : string) :
  Storage.load_expenses parse_float gen st = Ok es ->
  (exists e, In e es /\ Models.id e = x) ->
  exists st' items,
    Storage.delete_expense parse_float gen st x = Ok (true, st')
    /\ Storage.file st' = Storage.Json (Storage.JArray items)
    /\ Storage.writes st' = S (Storage.writes st)
    /\ items = map (fun e => Models.Obj (Models.to_dict e))
                   (filter (fun e => negb (String.eqb (Models.id e) x)) es)
    /\ Storage.load_expenses_log parse_float gen' st'
       = Ok (filter (fun e => negb (String.eqb (Models.id e) x)) es, [])
    /\ forall it dflt,
         is_ok (Models.from_dict parse_float dflt it) = false ->
         ~ In it items.
Proof.
  intros Hl Hx.
  rewrite (delete_expense_cases _ _ _ x Hl), existsb_id_true by exact Hx.
  assert (Hv : Forall (fun e => Models.valid e = true)
                 (filter (fun e => negb (String.eqb (Models.id e) x)) es)).
  { apply filter_valid. eapply load_expenses_valid, Hl. }
  do 2 eexists. split; [reflexivity|]. cbn [Storage.file Storage.writes].
  repeat split.
  - now apply load_saved.
  - intros it dflt Hbad Hin.
    apply in_map_iff in Hin as (e & <- & He).
    rewrite Forall_forall in Hv.
    rewrite (from_dict_to_dict parse_float dflt e (Hv e He)) in Hbad.
    discriminate.
Qed.

Lemma delete_drops_skipped_entries_witness :
  exists st' items,
    Storage.delete_expense (fun _ => None) Samples.clock Samples.store_mixed
      "d0d0d0d0" = Ok (true, st')
    /\ Storage.file st' = Storage.Json (Storage.JArray items)
    /\ Storage.writes st' = 1
    /\ items = [Models.Obj (Models.to_dict Samples.lunch)]
    /\ Storage.load_expenses_log (fun _ => None) Samples.clock st'
       = Ok ([Samples.lunch], [])
    /\ forall it dflt,
         is_ok (Models.from_dict (fun _ => None) dflt it) = false ->
         ~ In it items.
Proof.
  refine (@delete_drops_skipped_entries (fun _ => None) Samples.clock
            Samples.clock Samples.store_mixed
            [Samples.lunch; Samples.expense 7 "taxi" "2024-01-20" "d0d0d0d0"]
            "d0d0d0d0"%string _ _).
  - reflexivity.
  - exists (Samples.expense 7 "taxi" "2024-01-20" "d0d0d0d0").
    split; [right; now left | reflexivity].
Defined.

(** ** Order on strings and on floats *)

Section OrderFacts.

Lemma ascii_compare_refl (a : ascii) : Ascii.compare a a = Eq.
Proof. unfold Ascii.compare. apply N.compare_refl. Qed.

Lemma string_compare_refl (s : string) : String.compare s s = Eq.
Proof.
  induction s as [|a s IH]; simpl; [reflexivity|].
  now rewrite ascii_compare_refl.
Qed.

Lemma string_compare_lt_trans (a b c : string) :
  String.compare a b = Lt -> String.compare b c = Lt ->
  String.compare a c = Lt.
Proof.
  revert b c. induction a as [|x a IH]; intros [|y b] [|z c]; simpl;
    try discriminate; auto.
  destruct (Ascii.compare x y) eqn:Hxy; try discriminate;
    destruct (Ascii.compare y z) eqn:Hyz; try discriminate; intros H1 H2.
  - apply Ascii.compare_eq_iff in Hxy, Hyz. subst.
    rewrite ascii_compare_refl. eauto.
  - apply Ascii.compare_eq_iff in Hxy. subst. now rewrite Hyz.
  - apply Ascii.compare_eq_iff in Hyz. subst. now rewrite Hxy.
  - unfold Ascii.compare in *.
    rewrite N.compare_lt_iff in Hxy, Hyz.
    assert (H : (N_of_ascii x ?= N_of_ascii z)%N = Lt)
      by (apply N.compare_lt_iff; lia).
    now rewrite H.
Qed.

Lemma string_compare_neq (a b : string) :
  String.compare a b <> Eq -> String.eqb a b = false.
Proof.
  intros H. apply String.eqb_neq. intros ->.
  apply H, string_compare_refl.
Qed.

End OrderFacts.

(** ** Grouping *)

Section GroupFacts.
Import Models.


Lemma group_insert_keys (k : string) (x : F64.float) (g : list (string * list F64.float)) (z : string) :
  In z (Spec.keys (Manager.group_insert k x g)) <-> z = k \/ In z (Spec.keys g).
Proof.
  induction g as [|[k' xs] rest IH]; simpl.
  - intuition.
  - destruct (String.compare k k') eqn:E; simpl.
    + apply String.compare_eq_iff in E. subst. intuition.
    + intuition.
    + rewrite IH. intuition.
Qed.

Lemma group_insert_sorted (k : string) (x : F64.float) (g : list (string * list F64.float)) :
  StronglySorted Spec.key_lt (Spec.keys g) ->
  StronglySorted Spec.key_lt (Spec.keys (Manager.group_insert k x g)).
Proof.
  induction g as [|[k' xs] rest IH]; simpl; intros H.
  - repeat constructor.
  - destruct (String.compare k k') eqn:E; simpl.
    + exact H.
    + constructor; [exact H|].
      constructor; [exact E|].
      apply StronglySorted_inv in H as [_ H].
      eapply Forall_impl; [|exact H].
      intros z Hz. eapply string_compare_lt_trans; eassumption.
    + apply StronglySorted_inv in H as [Hs Hf].
      constructor; [now apply IH|].
      apply Forall_forall. intros z Hz.
      apply group_insert_keys in Hz as [->|Hz].
      * unfold Spec.key_lt. rewrite String.compare_antisym, E. reflexivity.
      * rewrite Forall_forall in Hf. now apply Hf.
Qed.

Lemma group_get_above (k : string) (g : list (string * list F64.float)) :
  Forall (Spec.key_lt k) (Spec.keys g) -> Spec.group_get k g = None.
Proof.
  induction g as [|[k' xs] rest IH]; simpl; intros H; [reflexivity|].
  apply Forall_cons_iff in H as [Hk H]. simpl in Hk.
  rewrite string_compare_neq by (unfold Spec.key_lt in Hk; congruence).
  now apply IH.
Qed.

(** What is filed under a key after an insertion. *)
Lemma group_get_insert (k : string) (x : F64.float) (g : list (string * list F64.float))
    (z : string) :
  StronglySorted Spec.key_lt (Spec.keys g) ->
  Spec.group_get z (Manager.group_insert k x g)
  = if String.eqb z k
    then Some (match Spec.group_get k g with
               | Some xs => xs ++ [x]
               | None => [x]
               end)
    else Spec.group_get z g.
Proof.
  induction g as [|[k' xs] rest IH]; simpl; intros H.
  - reflexivity.
  - apply StronglySorted_inv in H as [Hs Hf].
    destruct (String.compare k k') eqn:E; simpl.
    + apply String.compare_eq_iff in E. subst k'.
      rewrite String.eqb_refl. now destruct (String.eqb z k).
    + rewrite (string_compare_neq k k') by congruence.
      rewrite (@group_get_above k rest); [reflexivity|].
      eapply Forall_impl; [|exact Hf].
      intros y Hy. eapply string_compare_lt_trans; eassumption.
    + rewrite (string_compare_neq k k') by congruence.
      rewrite (IH Hs).
      destruct (String.eqb z k') eqn:Ez; [|reflexivity].
      apply String.eqb_eq in Ez. subst z.
      rewrite String.eqb_sym, (string_compare_neq k k') by congruence.
      reflexivity.
Qed.

Lemma fold_groups (df : list Expense) :
  forall g,
    StronglySorted Spec.key_lt (Spec.keys g) ->
    StronglySorted Spec.key_lt (Spec.keys (fold_left Manager.group_step df g))
    /\ forall z,
         Spec.group_get z (fold_left Manager.group_step df g)
         = match Spec.group_get z g, Spec.amounts_of z df with
           | Some xs, ys => Some (xs ++ ys)
           | None, [] => None
           | None, ys => Some ys
           end.
Proof.
  induction df as [|e df IH]; intros g Hg; simpl.
  - split; [exact Hg|]. intros z.
    destruct (Spec.group_get z g); [now rewrite app_nil_r | reflexivity].
  - destruct (IH (Manager.group_step g e) (@group_insert_sorted _ _ _ Hg)) as [Hs Hget].
    split; [exact Hs|]. intros z. rewrite Hget.
    unfold Manager.group_step at 1. rewrite group_get_insert by exact Hg.
    unfold Spec.amounts_of. simpl.
    rewrite (String.eqb_sym (category e) z).
    destruct (String.eqb z (category e)) eqn:Ez; simpl.
    + apply String.eqb_eq in Ez. subst z.
      destruct (Spec.group_get (category e) g);
        [now rewrite <- app_assoc | reflexivity].
    + reflexivity.
Qed.

Lemma groupby_sorted (df : list Expense) :
  StronglySorted Spec.key_lt (Spec.keys (Manager.groupby_category df)).
Proof. apply (fold_groups df []). constructor. Qed.

Lemma groupby_get (df : list Expense) (z : string) :
  Spec.group_get z (Manager.groupby_category df)
  = match Spec.amounts_of z df with
    | [] => None
    | ys => Some ys
    end.
Proof.
  destruct (fold_groups df [] (SSorted_nil _)) as [_ H].
  exact (H z).
Qed.

Lemma sorted_keys_NoDup (l : list string) :
  StronglySorted Spec.key_lt l -> NoDup l.
Proof.
  induction 1 as [|k l Hs IH Hf]; constructor; [|exact IH].
  intros Hin. rewrite Forall_forall in Hf.
  specialize (Hf k Hin). unfold Spec.key_lt in Hf.
  now rewrite string_compare_refl in Hf.
Qed.

Lemma group_get_In (g : list (string * list F64.float)) (k : string) (xs : list F64.float) :
  StronglySorted Spec.key_lt (Spec.keys g) -> In (k, xs) g ->
  Spec.group_get k g = Some xs.
Proof.
  induction g as [|[k' xs'] rest IH]; simpl; intros Hs Hin;
    [contradiction|]; destruct Hin as [H|H].
  - injection H as -> ->. now rewrite String.eqb_refl.
  - apply StronglySorted_inv in Hs as [Hs Hf].
    rewrite Forall_forall in Hf.
    assert (Hk : Spec.key_lt k' k) by (apply Hf, in_map_iff; now exists (k, xs)).
    rewrite String.eqb_sym, string_compare_neq
      by (unfold Spec.key_lt in Hk; congruence).
    now apply IH.
Qed.

Lemma group_get_keys (g : list (string * list F64.float)) (k : string) :
  In k (Spec.keys g) <-> Spec.group_get k g <> None.
Proof.
  induction g as [|[k' xs'] rest IH]; simpl.
  - intuition.
  - destruct (String.eqb k k') eqn:E.
    + apply String.eqb_eq in E. subst. intuition discriminate.
    + apply String.eqb_neq in E. rewrite IH. intuition congruence.
Qed.

Lemma amounts_nonempty (df : list Expense) (k : string) :
  Spec.amounts_of k df <> []
  <-> exists e, In e df /\ category e = k.
Proof.
  unfold Spec.amounts_of. split.
  - intros H.
    destruct (filter (fun e => String.eqb (category e) k) df) as [|e l] eqn:E;
      [now elim H|].
    assert (He : In e (filter (fun e => String.eqb (category e) k) df))
      by (rewrite E; now left).
    apply filter_In in He as [He Hk]. apply String.eqb_eq in Hk. eauto.
  - intros (e & He & Hk) H.
    apply map_eq_nil in H.
    assert (Hin : In e (filter (fun e => String.eqb (category e) k) df))
      by (apply filter_In; split; [exact He | now apply String.eqb_eq]).
    now rewrite H in Hin.
Qed.

(** The Spec.keys of the groups are the categories that occur, each once. *)
Lemma groupby_keys (df : list Expense) (k : string) :
  In k (Spec.keys (Manager.groupby_category df))
  <-> exists e, In e df /\ category e = k.
Proof.
  rewrite group_get_keys, groupby_get, <- amounts_nonempty.
  destruct (Spec.amounts_of k df); intuition congruence.
Qed.

Lemma groupby_keys_NoDup (df : list Expense) :
  NoDup (Spec.keys (Manager.groupby_category df)).
Proof. apply sorted_keys_NoDup, groupby_sorted. Qed.

(** Each group holds the amounts of its category, so that aggregating
    the groups gives the row of each key. *)
Lemma agg_groupby (K : Pandas.kernels) (df : list Expense) :
  Manager.agg K (Manager.groupby_category df)
  = map (Spec.row_of K df) (Spec.keys (Manager.groupby_category df)).
Proof.
  unfold Manager.agg, Spec.keys. rewrite map_map.
  apply map_ext_in. intros [k xs] Hin. simpl.
  pose proof (@group_get_In _ _ _ (groupby_sorted df) Hin) as H.
  rewrite groupby_get in H.
  destruct (Spec.amounts_of k df) as [|y ys] eqn:E; [discriminate|].
  injection H as <-. unfold Spec.row_of. now rewrite E.
Qed.

End GroupFacts.

(** ** Summary *)

Section SummaryFacts.
Import Models.

Variable parse_float : string -> option F64.float.
Variable gen : nat -> defaults.

Lemma month_filter (month : option string) (es : list Expense) :
  Manager.if_given month
    (fun month df => filter (fun e => PyStr.startswith (date e) month) df) es
  = filter (Spec.in_month month) es.
Proof.
  destruct month as [[|a m]|]; simpl.
  - rewrite <- (filter_true es) at 1. apply filter_ext.
    intros e. unfold Spec.in_month. now destruct (date e).
  - reflexivity.
  - symmetry. exact (filter_true es).
Qed.

(** [get_summary] without its two early returns. *)
Lemma get_summary_rows (K : Pandas.kernels) (st : Storage.state)
    (month : option string) (es : list Expense) :
  Storage.load_expenses parse_float gen st = Ok es ->
  Manager.get_summary parse_float gen K st month
  = Ok (map (Manager.round_row K)
          (Manager.sort_values_total_desc
             (Manager.agg K
                (Manager.groupby_category
                   (filter (Spec.in_month month) es))))).
Proof.
  intros Hl. unfold Manager.get_summary. rewrite Hl. cbn [bind].
  rewrite month_filter.
  destruct es as [|e es]; [reflexivity|].
  now destruct (filter (Spec.in_month month) (e :: es)).
Qed.

End SummaryFacts.

(* ================================================================== *)
(** * Part III: further properties of the storage, the manager and the
      command line                                                     *)
(* ================================================================== *)

(** ** Saving and loading *)

Section MoreStorageFacts.
Import Models.

Variable parse_float : string -> option F64.float.

Lemma load_loop_lengths (gen : nat -> defaults) (data : list item) :
  forall i es ws,
    Storage.load_loop parse_float gen i data = Ok (es, ws) ->
    List.length es + List.length ws = List.length data.
Proof.
  induction data as [|it rest IH]; intros i es ws H; simpl in H.
  - now injection H as <- <-.
  - destruct (from_dict parse_float (gen i) it) as [e|x] eqn:Hfd.
    + destruct (Storage.load_loop parse_float gen (S i) rest)
        as [[es' ws']|] eqn:Hr; simpl in H; [|discriminate].
      injection H as <- <-. simpl. now rewrite (IH _ _ _ Hr).
    + destruct x; try discriminate;
        (destruct (Storage.load_loop parse_float gen (S i) rest)
           as [[es' ws']|] eqn:Hr; simpl in H; [|discriminate]);
        injection H as <- <-; simpl; rewrite <- (IH _ _ _ Hr); lia.
Qed.

Lemma from_dict_all_keys (d1 d2 : defaults) (it : item) :
  Shape.has_all_keys it = true ->
  from_dict parse_float d1 it = from_dict parse_float d2 it.
Proof.
  destruct it as [d|v]; simpl; [|reflexivity].
  destruct (d_id d), (d_date d), (d_created_at d); try discriminate.
  reflexivity.
Qed.

Lemma load_loop_all_keys (gen gen' : nat -> defaults) (data : list item) :
  Forall (fun it => Shape.has_all_keys it = true) data ->
  forall i j,
    Storage.load_loop parse_float gen i data
    = Storage.load_loop parse_float gen' j data.
Proof.
  induction 1 as [|it rest Hit Hrest IH]; intros i j; simpl; [reflexivity|].
  rewrite (from_dict_all_keys (gen i) (gen' j) it Hit), (IH (S i) (S j)).
  reflexivity.
Qed.

Lemma find_first (A : Type) (f : A -> bool) (l : list A) (a : A) :
  find f l = Some a ->
  exists l1 l2, l = l1 ++ a :: l2 /\ forall b, In b l1 -> f b = false.
Proof.
  induction l as [|h t IH]; simpl; [discriminate|].
  destruct (f h) eqn:E.
  - intros [= <-]. exists [], t. split; [reflexivity|]. intros b [].
  - intros H. destruct (IH H) as (l1 & l2 & -> & Hl1).
    exists (h :: l1), l2. split; [reflexivity|].
    intros b [<-|Hb]; auto.
Qed.

Lemma find_none_iff (A : Type) (f : A -> bool) (l : list A) :
  find f l = None <-> forall a, In a l -> f a = false.
Proof.
  split; [apply find_none|].
  induction l as [|h t IH]; simpl; intros H; [reflexivity|].
  rewrite (H h) by now left. apply IH. intros a Ha. apply H. now right.
Qed.

Lemma get_by_id_none (gen : nat -> defaults) (st : Storage.state)
    (es : list Expense) (x : string) :
  Storage.load_expenses parse_float gen st = Ok es ->
  (forall e, In e es -> id e <> x) ->
  Storage.get_expense_by_id parse_float gen st x = Ok None.
Proof.
  intros Hl H. unfold Storage.get_expense_by_id. rewrite Hl. cbn [bind].
  f_equal. apply find_none_iff.
  intros e He. apply String.eqb_neq. now apply H.
Qed.


End MoreStorageFacts.

(** X1. Saving records that satisfy the constructor's invariant to a file
    that can be opened, and loading the file again, gives the same records
    in the same order, with no warning and after exactly one write. *)
Theorem save_then_load
    (parse_float : string -> option F64.float) (gen : nat -> Models.defaults)
    (st : Storage.state) (es : list Models.Expense) :
  Storage.file st <> Storage.Denied ->
  Forall (fun e => Models.valid e = true) es ->
  exists st',
    Storage.save_expenses st es = Ok st'
    /\ Storage.writes st' = S (Storage.writes st)
    /\ Storage.load_expenses_log parse_float gen st' = Ok (es, []).
Proof.
  intros Hd Hv. rewrite save_expenses_ok by exact Hd.
  eexists. split; [reflexivity|]. split; [reflexivity|].
  now apply load_saved.
Qed.

Lemma save_then_load_witness :
  exists st',
    Storage.save_expenses (Storage.mkState Storage.Garbled 3)
      [Samples.lunch; Samples.expense 7 "taxi" "2024-01-20" "d0d0d0d0"]
    = Ok st'
    /\ Storage.writes st' = 4
    /\ Storage.load_expenses_log (fun _ => None) Samples.clock st'
       = Ok ([Samples.lunch; Samples.expense 7 "taxi" "2024-01-20" "d0d0d0d0"],
             []).
Proof.
  refine (@save_then_load (fun _ => None) Samples.clock
            (Storage.mkState Storage.Garbled 3)
            [Samples.lunch; Samples.expense 7 "taxi" "2024-01-20" "d0d0d0d0"]
            _ _).
  - discriminate.
  - repeat constructor.
Defined.

(** X2. [JSONStorage.add_expense] on a collection that loads writes the
    file once; the file then holds the loaded records in their order
    followed by the new one, and nothing else: elements that were skipped
    at loading are gone. *)
Theorem storage_add_appends
    (parse_float : string -> option F64.float)
    (gen gen' : nat -> Models.defaults)
    (st : Storage.state) (es : list Models.Expense) (e : Models.Expense) :
  Storage.load_expenses parse_float gen st = Ok es ->
  Models.valid e = true ->
  exists st',
    Storage.add_expense parse_float gen st e = Ok st'
    /\ Storage.writes st' = S (Storage.writes st)
    /\ Storage.file st'
       = Storage.Json
           (Storage.JArray
              (map (fun e => Models.Obj (Models.to_dict e)) (es ++ [e])))
    /\ Storage.load_expenses_log parse_float gen' st' = Ok (es ++ [e], []).
Proof.
  intros Hl He. unfold Storage.add_expense. rewrite Hl. cbn [bind].
  destruct (load_expenses_inv _ _ _ Hl) as (_ & _ & _ & _ & Hd).
  rewrite save_expenses_ok by exact Hd.
  eexists. split; [reflexivity|]. repeat split.
  apply load_saved, Forall_app. split.
  - eapply load_expenses_valid, Hl.
  - now repeat constructor.
Qed.

Lemma storage_add_appends_witness :
  exists st',
    Storage.add_expense (fun _ => None) Samples.clock Samples.store_mixed
      (Samples.expense 9 "books" "2024-02-02" "e1e1e1e1") = Ok st'
    /\ Storage.writes st' = 1
    /\ Storage.file st'
       = Storage.Json
           (Storage.JArray
              (map (fun e => Models.Obj (Models.to_dict e))
                   ([Samples.lunch;
                     Samples.expense 7 "taxi" "2024-01-20" "d0d0d0d0"]
                    ++ [Samples.expense 9 "books" "2024-02-02" "e1e1e1e1"])))
    /\ Storage.load_expenses_log (fun _ => None) Samples.clock st'
       = Ok ([Samples.lunch;
              Samples.expense 7 "taxi" "2024-01-20" "d0d0d0d0"]
             ++ [Samples.expense 9 "books" "2024-02-02" "e1e1e1e1"], []).
Proof.
  refine (@storage_add_appends (fun _ => None) Samples.clock Samples.clock
            Samples.store_mixed
            [Samples.lunch; Samples.expense 7 "taxi" "2024-01-20" "d0d0d0d0"]
            (Samples.expense 9 "books" "2024-02-02" "e1e1e1e1") _ _);
    reflexivity.
Defined.

(** X3. [JSONStorage.add_expense] does not keep what it cannot read: on a
    file that is absent, that is not JSON or whose document is not an
    array, it writes an array holding the new record alone. *)
Theorem storage_add_replaces_unreadable_content
    (parse_float : string -> option F64.float) (gen : nat -> Models.defaults)
    (st : Storage.state) (e : Models.Expense) :
  Storage.file st = Storage.Absent \/ Storage.file st = Storage.Garbled
  \/ Storage.file st = Storage.Json Storage.JOther ->
  Storage.add_expense parse_float gen st e
  = Ok (Storage.mkState
          (Storage.Json (Storage.JArray [Models.Obj (Models.to_dict e)]))
          (S (Storage.writes st))).
Proof.
  unfold Storage.add_expense, Storage.load_expenses,
    Storage.load_expenses_log, Storage._read_data, Storage.save_expenses,
    Storage._write_data.
  intros [H|[H|H]]; rewrite H; reflexivity.
Qed.

Lemma storage_add_replaces_unreadable_content_witness :
  Storage.add_expense (fun _ => None) Samples.clock
    (Storage.mkState Storage.Garbled 0) Samples.lunch
  = Ok (Storage.mkState
          (Storage.Json
             (Storage.JArray [Models.Obj (Models.to_dict Samples.lunch)]))
          1).
Proof.
  apply (@storage_add_replaces_unreadable_content (fun _ => None)
           Samples.clock (Storage.mkState Storage.Garbled 0) Samples.lunch).
  right. left. reflexivity.
Defined.

(** X4. When [load_expenses] returns, every element of the stored array was
    either returned as a record or reported by a warning: the records and
    the warnings together are as many as the elements, so no more records
    are returned than elements are stored. *)
Theorem load_accounts_for_every_element
    (parse_float : string -> option F64.float) (gen : nat -> Models.defaults)
    (n : nat) (items : list Models.item) (es : list Models.Expense)
    (ws : list exn) :
  Storage.load_expenses_log parse_float gen
    (Storage.mkState (Storage.Json (Storage.JArray items)) n) = Ok (es, ws) ->
  List.length es + List.length ws = List.length items
  /\ List.length es <= List.length items.
Proof.
  unfold Storage.load_expenses_log. simpl. intros H.
  apply load_loop_lengths in H. lia.
Qed.

Lemma load_accounts_for_every_element_witness :
  List.length [Samples.lunch; Samples.expense 7 "taxi" "2024-01-20" "d0d0d0d0"]
  + List.length [ValueError Models.msg_amount]
  = List.length
      [Models.Obj (Models.to_dict Samples.lunch);
       Models.Obj
         (Models.mkDict (Some (Models.VFloat (F64.of_Z (-5))))
            (Some (Models.VStr "food")) (Some (Models.VStr "lunch"))
            (Some "2024-01-16"%string) (Some "b2c3d4e5"%string)
            (Some "2024-01-16T08:00:00"%string));
       Models.Obj
         (Models.to_dict (Samples.expense 7 "taxi" "2024-01-20" "d0d0d0d0"))]
  /\ List.length
       [Samples.lunch; Samples.expense 7 "taxi" "2024-01-20" "d0d0d0d0"]
     <= List.length
          [Models.Obj (Models.to_dict Samples.lunch);
           Models.Obj
             (Models.mkDict (Some (Models.VFloat (F64.of_Z (-5))))
                (Some (Models.VStr "food")) (Some (Models.VStr "lunch"))
                (Some "2024-01-16"%string) (Some "b2c3d4e5"%string)
                (Some "2024-01-16T08:00:00"%string));
           Models.Obj
             (Models.to_dict
                (Samples.expense 7 "taxi" "2024-01-20" "d0d0d0d0"))].
Proof.
  refine (@load_accounts_for_every_element (fun _ => None) Samples.clock 0
            _ _ _ _).
  reflexivity.
Defined.

(** X5. The default expressions of [from_dict] matter only for elements
    that lack one of the keys id, date and created_at: a file whose objects
    all carry the three keys loads to the same records and warnings at
    every load, whatever the clock and [uuid4] give; this holds of every
    file that [save_expenses] wrote. *)
Theorem load_of_complete_file_is_stable :
  (forall (parse_float : string -> option F64.float)
          (gen gen' : nat -> Models.defaults) (n n' : nat)
          (items : list Models.item),
      Forall (fun it => Shape.has_all_keys it = true) items ->
      Storage.load_expenses_log parse_float gen
        (Storage.mkState (Storage.Json (Storage.JArray items)) n)
      = Storage.load_expenses_log parse_float gen'
          (Storage.mkState (Storage.Json (Storage.JArray items)) n'))
  /\ (forall es : list Models.Expense,
         Forall (fun it => Shape.has_all_keys it = true)
                (map (fun e => Models.Obj (Models.to_dict e)) es)).
Proof.
  split.
  - intros parse_float gen gen' n n' items H.
    unfold Storage.load_expenses_log. simpl.
    now apply load_loop_all_keys.
  - intros es. apply Forall_forall. intros it Hit.
    apply in_map_iff in Hit as (e & <- & _). reflexivity.
Qed.

Lemma load_of_complete_file_is_stable_witness :
  Storage.load_expenses_log (fun _ => None) Samples.clock Samples.store_mixed
  = Storage.load_expenses_log (fun _ => None)
      (fun i => Models.mkDefaults "2025-01-01" "ffffffff" "2025-01-01T00:00:00")
      Samples.store_mixed.
Proof.
  refine (proj1 load_of_complete_file_is_stable (fun _ => None) Samples.clock
            _ 0 0 _ _).
  repeat constructor.
Defined.

(** ** Deserialising *)

(** X6. [Expense.from_dict] raises [KeyError] exactly for a missing
    required key, and names the first one missing in the order amount,
    category, description: the amount is converted before the category is
    looked up, and the description is looked up before anything is
    validated. *)
Theorem from_dict_key_error
    (parse_float : string -> option F64.float) (dflt : Models.defaults)
    (d : Models.dict) (k : string) :
  Models.from_dict parse_float dflt (Models.Obj d) = Raise (KeyError k)
  <-> (Models.d_amount d = None /\ k = "amount"%string)
      \/ (exists v a,
             Models.d_amount d = Some v
             /\ Models.py_float parse_float v = Ok a
             /\ ((Models.d_category d = None /\ k = "category"%string)
                 \/ (Models.d_category d <> None
                     /\ Models.d_description d = None
                     /\ k = "description"%string))).
Proof.
  simpl. destruct (Models.d_amount d) as [v|]; simpl.
  - destruct (Models.py_float parse_float v) as [a|x] eqn:Hv; simpl.
    + destruct (Models.d_category d) as [c|]; simpl.
      * destruct (Models.d_description d) as [ds|]; simpl.
        -- split.
           ++ unfold Models.__post_init__.
              destruct (F64.leb a F64.zero); [discriminate|].
              destruct c; simpl; try discriminate.
              destruct ds; simpl; try discriminate.
              destruct (PyStr.is_empty _); discriminate.
           ++ intros [[H _]|(v' & a' & _ & _ & [[H _]|(_ & H & _)])];
                discriminate.
        -- split.
           ++ intros [= <-]. right. exists v, a.
              split; [reflexivity|]. split; [exact Hv|]. right.
              split; [discriminate|]. split; reflexivity.
           ++ intros [[H _]|(v' & a' & _ & _ & [[H _]|(_ & _ & ->)])];
                try discriminate. reflexivity.
      * split.
        -- intros [= <-]. right. exists v, a.
           split; [reflexivity|]. split; [exact Hv|]. now left.
        -- intros [[H _]|(v' & a' & _ & _ & [[_ ->]|(H & _)])];
             try discriminate; [reflexivity | now elim H].
    + split.
      * intros [= ->].
        destruct v; simpl in Hv; try discriminate.
        -- destruct (F64.of_Z n); discriminate.
        -- destruct (parse_float s); discriminate.
      * intros [[H _]|(v' & a' & [= <-] & Ha & _)]; [discriminate|].
        rewrite Ha in Hv. discriminate.
  - split.
    + intros [= <-]. now left.
    + intros [[_ ->]|(v & a & H & _)]; [reflexivity | discriminate].
Qed.

(** X7. A record that [Expense.from_dict] returns carries the stored id,
    date and creation time where the mapping has them and the fresh id,
    today's date and the current time where it has not; its amount is the
    converted stored amount. *)
Theorem from_dict_fills_defaults
    (parse_float : string -> option F64.float) (dflt : Models.defaults)
    (d : Models.dict) (e : Models.Expense) :
  Models.from_dict parse_float dflt (Models.Obj d) = Ok e ->
  Models.id e = Models.get (Models.d_id d) (Models.uuid8 dflt)
  /\ Models.date e = Models.get (Models.d_date d) (Models.today dflt)
  /\ Models.created_at e
     = Models.get (Models.d_created_at d) (Models.now_iso dflt)
  /\ exists v, Models.d_amount d = Some v
               /\ Models.py_float parse_float v = Ok (Models.amount e).
Proof.
  simpl. destruct (Models.d_amount d) as [v|]; simpl; [|discriminate].
  destruct (Models.py_float parse_float v) as [a|] eqn:Hv; simpl;
    [|discriminate].
  destruct (Models.d_category d) as [c|]; simpl; [|discriminate].
  destruct (Models.d_description d) as [ds|]; simpl; [|discriminate].
  intros H. apply post_init_ok in H as (c' & d' & _ & _ & H).
  apply new_Expense_ok in H as (_ & _ & ->). simpl.
  repeat split. now exists v.
Qed.

Lemma from_dict_fills_defaults_witness :
  Models.id
    (Models.mkExpense (F64.of_Z 12) "food" "lunch" "2024-06-01" "0a1b2c3d"
                      "2024-01-15T12:30:00")
  = Models.get None (Models.uuid8 (Samples.clock 0))
  /\ Models.date
       (Models.mkExpense (F64.of_Z 12) "food" "lunch" "2024-06-01" "0a1b2c3d"
                         "2024-01-15T12:30:00")
     = Models.get None (Models.today (Samples.clock 0))
  /\ Models.created_at
       (Models.mkExpense (F64.of_Z 12) "food" "lunch" "2024-06-01" "0a1b2c3d"
                         "2024-01-15T12:30:00")
     = Models.get (Some "2024-01-15T12:30:00"%string)
                  (Models.now_iso (Samples.clock 0))
  /\ exists v,
       Some (Models.VInt 12) = Some v
       /\ Models.py_float (fun _ => None) v = Ok (F64.of_Z 12).
Proof.
  refine (@from_dict_fills_defaults (fun _ => None) (Samples.clock 0)
            (Models.mkDict (Some (Models.VInt 12)) (Some (Models.VStr "Food"))
               (Some (Models.VStr " lunch")) None None
               (Some "2024-01-15T12:30:00"%string))
            _ _).
  reflexivity.
Defined.

(** ** Looking up and deleting *)

(** X8. On a collection that loads, [get_expense_by_id] returns the first
    loaded record that carries the id, and returns no record exactly when
    no loaded record carries it. *)
Theorem get_expense_by_id_first_match
    (parse_float : string -> option F64.float) (gen : nat -> Models.defaults)
    (st : Storage.state) (es : list Models.Expense) (x : string) :
  Storage.load_expenses parse_float gen st = Ok es ->
  (forall e,
      Storage.get_expense_by_id parse_float gen st x = Ok (Some e)
      <-> exists before after,
            es = before ++ e :: after
            /\ Models.id e = x
            /\ forall b, In b before -> Models.id b <> x)
  /\ (Storage.get_expense_by_id parse_float gen st x = Ok None
      <-> forall e, In e es -> Models.id e <> x).
Proof.
  intros Hl. unfold Storage.get_expense_by_id. rewrite Hl. cbn [bind].
  split.
  - intros e. split.
    + intros [= H].
      destruct (find_first _ _ H) as (l1 & l2 & -> & Hl1).
      apply find_some in H as [_ He]. apply String.eqb_eq in He.
      exists l1, l2. split; [reflexivity|]. split; [exact He|].
      intros b Hb. apply String.eqb_neq. now apply Hl1.
    + intros (l1 & l2 & -> & He & Hl1). f_equal.
      clear Hl. induction l1 as [|h t IH]; simpl.
      * apply String.eqb_eq in He. now rewrite He.
      * assert (Hh : String.eqb (Models.id h) x = false)
          by (apply String.eqb_neq, Hl1; now left).
        rewrite Hh. apply IH. intros b Hb. apply Hl1. now right.
  - split.
    + intros [= H] e He. apply String.eqb_neq.
      exact (proj1 (find_none_iff _ _) H e He).
    + intros H. f_equal. apply find_none_iff.
      intros e He. apply String.eqb_neq. now apply H.
Qed.

Lemma get_expense_by_id_first_match_witness :
  (forall e,
      Storage.get_expense_by_id (fun _ => None) Samples.clock
        Samples.store_lunch "a1b2c3d4" = Ok (Some e)
      <-> exists before after,
            [Samples.lunch] = before ++ e :: after
            /\ Models.id e = "a1b2c3d4"%string
            /\ forall b, In b before -> Models.id b <> "a1b2c3d4"%string)
  /\ (Storage.get_expense_by_id (fun _ => None) Samples.clock
        Samples.store_lunch "a1b2c3d4" = Ok None
      <-> forall e, In e [Samples.lunch] -> Models.id e <> "a1b2c3d4"%string).
Proof.
  refine (@get_expense_by_id_first_match (fun _ => None) Samples.clock
            Samples.store_lunch [Samples.lunch] "a1b2c3d4"%string _).
  reflexivity.
Defined.

(** X9. On a collection that loads, [delete_expense] reports a deletion
    exactly when [get_expense_by_id] (at the same load) finds a record. *)
Theorem delete_succeeds_iff_found
    (parse_float : string -> option F64.float) (gen : nat -> Models.defaults)
    (st : Storage.state) (es : list Models.Expense) (x : string) :
  Storage.load_expenses parse_float gen st = Ok es ->
  exists deleted st' found,
    Storage.delete_expense parse_float gen st x = Ok (deleted, st')
    /\ Storage.get_expense_by_id parse_float gen st x = Ok found
    /\ (deleted = true <-> found <> None).
Proof.
  intros Hl. rewrite (delete_expense_cases _ _ _ x Hl).
  unfold Storage.get_expense_by_id. rewrite Hl. cbn [bind].
  destruct (existsb (fun e => String.eqb (Models.id e) x) es) eqn:E.
  - do 3 eexists. split; [reflexivity|]. split; [reflexivity|].
    split; [|reflexivity]. intros _ H.
    apply existsb_exists in E as (e & He & Hx).
    rewrite (proj1 (find_none_iff _ _) H e He) in Hx. discriminate.
  - do 3 eexists. split; [reflexivity|]. split; [reflexivity|].
    split; [discriminate|]. intros H. elim H.
    apply find_none_iff. intros e He.
    destruct (String.eqb (Models.id e) x) eqn:Hx; [|reflexivity].
    assert (Hex : existsb (fun e => String.eqb (Models.id e) x) es = true)
      by (apply existsb_exists; eauto).
    congruence.
Qed.

Lemma delete_succeeds_iff_found_witness :
  exists deleted st' found,
    Storage.delete_expense (fun _ => None) Samples.clock Samples.store_mixed
      "d0d0d0d0" = Ok (deleted, st')
    /\ Storage.get_expense_by_id (fun _ => None) Samples.clock
         Samples.store_mixed "d0d0d0d0" = Ok found
    /\ (deleted = true <-> found <> None).
Proof.
  refine (@delete_succeeds_iff_found (fun _ => None) Samples.clock
            Samples.store_mixed
            [Samples.lunch; Samples.expense 7 "taxi" "2024-01-20" "d0d0d0d0"]
            "d0d0d0d0"%string _).
  reflexivity.
Defined.

(** X10. After a successful [delete_expense] the id is gone for good: at
    any later load [get_expense_by_id] finds no record of that id, and a
    second [delete_expense] returns false without writing. *)
Theorem delete_twice
    (parse_float : string -> option F64.float)
    (gen gen' : nat -> Models.defaults)
    (st st' : Storage.state) (x : string) :
  Storage.delete_expense parse_float gen st x = Ok (true, st') ->
  Storage.get_expense_by_id parse_float gen' st' x = Ok None
  /\ Storage.delete_expense parse_float gen' st' x = Ok (false, st').
Proof.
  intros H.
  destruct (Storage.load_expenses parse_float gen st) as [es|] eqn:Hl;
    [|unfold Storage.delete_expense in H; rewrite Hl in H; discriminate].
  rewrite (delete_expense_cases _ _ _ x Hl) in H.
  destruct (existsb _ es); [|discriminate]. injection H as <-.
  set (kept := filter (fun e => negb (String.eqb (Models.id e) x)) es).
  assert (Hl' : Storage.load_expenses parse_float gen'
                  (Storage.mkState
                     (Storage.Json
                        (Storage.JArray
                           (map (fun e => Models.Obj (Models.to_dict e)) kept)))
                     (S (Storage.writes st))) = Ok kept).
  { unfold Storage.load_expenses. rewrite load_saved; [reflexivity|].
    apply filter_valid. eapply load_expenses_valid, Hl. }
  assert (Hk : forall e, In e kept -> Models.id e <> x).
  { intros e He. apply filter_In in He as [_ He].
    apply negb_true_iff in He. now apply String.eqb_neq. }
  split.
  - exact (@get_by_id_none parse_float gen' _ _ x Hl' Hk).
  - rewrite (delete_expense_cases _ _ _ x Hl').
    now rewrite existsb_id_false by exact Hk.
Qed.

Lemma delete_twice_witness :
  Storage.get_expense_by_id (fun _ => None) Samples.clock
    (Samples.stored [Samples.lunch]) "d0d0d0d0" = Ok None
  /\ Storage.delete_expense (fun _ => None) Samples.clock
       (Storage.mkState
          (Storage.Json
             (Storage.JArray [Models.Obj (Models.to_dict Samples.lunch)])) 1)
       "d0d0d0d0"
     = Ok (false,
           Storage.mkState
             (Storage.Json
                (Storage.JArray [Models.Obj (Models.to_dict Samples.lunch)]))
             1).
Proof.
  pose proof (@delete_twice (fun _ => None) Samples.clock Samples.clock
                Samples.store_mixed
                (Storage.mkState
                   (Storage.Json
                      (Storage.JArray
                         [Models.Obj (Models.to_dict Samples.lunch)])) 1)
                "d0d0d0d0"%string eq_refl) as [H1 H2].
  split; [exact H1 | exact H2].
Defined.

(** ** Adding, listing and deleting through the manager *)

Section MoreManagerFacts.
Import Models.

Variable parse_float : string -> option F64.float.

Lemma list_expenses_unfiltered (gen : nat -> defaults) (st : Storage.state)
    (es : list Expense) :
  Storage.load_expenses parse_float gen st = Ok es ->
  Manager.list_expenses parse_float gen st None None None None
  = Ok (Manager.sort_by_date_desc es).
Proof.
  intros Hl. unfold Manager.list_expenses. now rewrite Hl.
Qed.

Lemma list_expenses_sorted_filter (gen : nat -> defaults) (st : Storage.state)
    (es : list Expense) (c s e : option string) (limit : option Z) :
  Storage.load_expenses parse_float gen st = Ok es ->
  Manager.list_expenses parse_float gen st c s e limit
  = Ok (Manager.apply_limit limit
          (Manager.sort_by_date_desc
             (filter (Spec.keeps (Spec.given c) (Spec.given s) (Spec.given e))
                     es))).
Proof.
  intros Hl. unfold Manager.list_expenses. rewrite Hl. cbn [bind].
  now rewrite filters_keep.
Qed.

Lemma filter_app_last (A : Type) (f : A -> bool) (l : list A) (a : A) :
  (forall b, In b l -> f b = true) -> f a = false ->
  filter f (l ++ [a]) = l.
Proof.
  intros Hl Ha. rewrite filter_app. simpl. rewrite Ha, app_nil_r.
  induction l as [|h t IH]; simpl; [reflexivity|].
  rewrite (Hl h) by now left. f_equal. apply IH.
  intros b Hb. apply Hl. now right.
Qed.

Lemma string_leb_refl (s : string) : String.leb s s = true.
Proof. unfold String.leb. now rewrite string_compare_refl. Qed.

Lemma string_leb_trans (a b c : string) :
  String.leb a b = true -> String.leb b c = true -> String.leb a c = true.
Proof.
  unfold String.leb.
  destruct (String.compare a b) eqn:Hab; try discriminate;
    destruct (String.compare b c) eqn:Hbc; try discriminate; intros _ _.
  - apply String.compare_eq_iff in Hab. subst. now rewrite Hbc.
  - apply String.compare_eq_iff in Hab. subst. now rewrite Hbc.
  - apply String.compare_eq_iff in Hbc. subst. now rewrite Hab.
  - now rewrite (string_compare_lt_trans _ _ _ Hab Hbc).
Qed.

(** Insertion keeps the order of the records of one date. *)
Lemma insert_has_date (d : string) (x : Expense) (l : list Expense) :
  filter (Shape.has_date d) (Sort.insert Manager.date_desc x l)
  = filter (Shape.has_date d) (x :: l).
Proof.
  induction l as [|h t IH]; [reflexivity|].
  cbn [Sort.insert].
  destruct (Manager.date_desc x h) eqn:E; [reflexivity|].
  cbn [filter]. rewrite IH. cbn [filter].
  destruct (Shape.has_date d x) eqn:Hx; [|reflexivity].
  destruct (Shape.has_date d h) eqn:Hh; [|reflexivity].
  unfold Shape.has_date in Hx, Hh.
  apply String.eqb_eq in Hx, Hh.
  unfold Manager.date_desc, PyStr.ge in E.
  rewrite Hx, Hh, string_leb_refl in E. discriminate.
Qed.

Lemma sort_has_date (d : string) (l : list Expense) :
  filter (Shape.has_date d) (Manager.sort_by_date_desc l)
  = filter (Shape.has_date d) l.
Proof.
  unfold Manager.sort_by_date_desc, Sort.sort.
  induction l as [|x l IH]; [reflexivity|].
  cbn [fold_right]. rewrite insert_has_date.
  cbn [filter]. now rewrite IH.
Qed.

Lemma sort_strongly_sorted (l : list Expense) :
  StronglySorted (fun a b => String.leb (date b) (date a) = true)
                 (Manager.sort_by_date_desc l).
Proof.
  apply Sorted_StronglySorted.
  - intros a b c Hab Hbc. eapply string_leb_trans; eassumption.
  - apply (sort_sorted Manager.date_desc date_desc_total).
Qed.

Lemma strongly_sorted_split (A : Type) (R : A -> A -> Prop) (l1 l2 : list A) :
  StronglySorted R (l1 ++ l2) ->
  forall a b, In a l1 -> In b l2 -> R a b.
Proof.
  induction l1 as [|h t IH]; simpl; intros Hs a b Ha Hb; [contradiction|].
  apply StronglySorted_inv in Hs as [Hs Hf].
  destruct Ha as [<-|Ha].
  - rewrite Forall_forall in Hf. apply Hf, in_or_app. now right.
  - now apply IH.
Qed.

End MoreManagerFacts.

(** X11. After a successful [ExpenseManager.add_expense], listing without
    filters gives the records loaded before together with the new record,
    one more than before.  The new record holds the amount as given, the
    category lowercased and trimmed, the description trimmed, and the date
    given or else today's. *)
Theorem add_then_list
    (parse_float : string -> option F64.float)
    (gen gen' : nat -> Models.defaults) (dflt : Models.defaults)
    (st st' : Storage.state) (a : F64.float) (c d : string)
    (dt : option string) (e : Models.Expense) :
  Manager.add_expense parse_float gen dflt st a c d dt = Ok (e, st') ->
  e = Models.mkExpense a (PyStr.lower (PyStr.strip c)) (PyStr.strip d)
                       (Manager.or_default dt (Models.today dflt))
                       (Models.uuid8 dflt) (Models.now_iso dflt)
  /\ exists es listed,
       Storage.load_expenses parse_float gen st = Ok es
       /\ Manager.list_expenses parse_float gen' st' None None None None
          = Ok listed
       /\ Permutation listed (es ++ [e])
       /\ List.length listed = S (List.length es).
Proof.
  intros H. unfold Manager.add_expense in H.
  destruct (Models.new_Expense a c d _ _ _) as [e0|] eqn:Hn;
    simpl in H; [|discriminate].
  destruct (Storage.add_expense parse_float gen st e0) as [st0|] eqn:Ha;
    simpl in H; [|discriminate].
  injection H as <- <-.
  pose proof (new_Expense_valid _ _ _ _ _ _ Hn) as Hv.
  apply new_Expense_ok in Hn as (_ & _ & ->).
  split; [now rewrite lower_strip|].
  unfold Storage.add_expense in Ha.
  destruct (Storage.load_expenses parse_float gen st) as [es|] eqn:Hl;
    simpl in Ha; [|discriminate].
  destruct (load_expenses_inv _ _ _ Hl) as (_ & _ & _ & _ & Hd).
  rewrite save_expenses_ok in Ha by exact Hd. injection Ha as <-.
  exists es. eexists. split; [reflexivity|].
  erewrite list_expenses_unfiltered.
  - split; [reflexivity|]. split.
    + symmetry. apply sort_perm.
    + unfold Manager.sort_by_date_desc.
      rewrite sort_length, length_app. simpl. lia.
  - unfold Storage.load_expenses. rewrite load_saved; [reflexivity|].
    apply Forall_app. split; [eapply load_expenses_valid, Hl|].
    now repeat constructor.
Qed.

Lemma add_then_list_witness :
  Samples.expense 9 "books" "2024-06-01" "0a1b2c3d"
  = Models.mkExpense (F64.of_Z 9) (PyStr.lower (PyStr.strip " Books"))
      (PyStr.strip "lunch ")
      (Manager.or_default None (Models.today (Samples.clock 0)))
      (Models.uuid8 (Samples.clock 0))
      (Models.now_iso
         (Models.mkDefaults "2024-06-01" "0a1b2c3d" "2024-01-15T12:30:00"))
  /\ exists es listed,
       Storage.load_expenses (fun _ => None) Samples.clock Samples.store_lunch
       = Ok es
       /\ Manager.list_expenses (fun _ => None) Samples.clock
            (Storage.mkState
               (Storage.Json
                  (Storage.JArray
                     (map (fun e => Models.Obj (Models.to_dict e))
                          [Samples.lunch;
                           Samples.expense 9 "books" "2024-06-01" "0a1b2c3d"])))
               1)
            None None None None = Ok listed
       /\ Permutation listed
            (es ++ [Samples.expense 9 "books" "2024-06-01" "0a1b2c3d"])
       /\ List.length listed = S (List.length es).
Proof.
  refine (@add_then_list (fun _ => None) Samples.clock Samples.clock
            (Models.mkDefaults "2024-06-01" "0a1b2c3d" "2024-01-15T12:30:00")
            Samples.store_lunch _ (F64.of_Z 9) " Books" "lunch " None _ _).
  reflexivity.
Defined.

(** X12. Deleting the record that [ExpenseManager.add_expense] has just
    returned, by its id, undoes the addition when no record loaded before
    carries that id: the collection stored afterwards is the one loaded
    before the addition. *)
Theorem add_then_delete
    (parse_float : string -> option F64.float)
    (gen gen' gen'' : nat -> Models.defaults) (dflt : Models.defaults)
    (st st' : Storage.state) (es : list Models.Expense) (a : F64.float)
    (c d : string) (dt : option string) (e : Models.Expense) :
  Storage.load_expenses parse_float gen st = Ok es ->
  Manager.add_expense parse_float gen dflt st a c d dt = Ok (e, st') ->
  (forall b, In b es -> Models.id b <> Models.id e) ->
  exists st'',
    Manager.delete_expense parse_float gen' st' (Models.id e) = Ok (true, st'')
    /\ Storage.load_expenses parse_float gen'' st'' = Ok es.
Proof.
  intros Hl Ha Hfresh.
  apply add_expense_valid in Ha as (He & _ & es0 & Hl0 & ->).
  rewrite Hl in Hl0. injection Hl0 as <-.
  assert (Hv : Forall (fun e => Models.valid e = true) (es ++ [e])).
  { apply Forall_app. split; [eapply load_expenses_valid, Hl|].
    now repeat constructor. }
  assert (Hl' : Storage.load_expenses parse_float gen'
                  (Storage.mkState
                     (Storage.Json
                        (Storage.JArray
                           (map (fun e => Models.Obj (Models.to_dict e))
                                (es ++ [e]))))
                     (S (Storage.writes st))) = Ok (es ++ [e])).
  { unfold Storage.load_expenses. now rewrite load_saved. }
  unfold Manager.delete_expense.
  rewrite (delete_expense_cases _ _ _ (Models.id e) Hl').
  rewrite existsb_id_true
    by (exists e; split; [apply in_or_app; right; now left | reflexivity]).
  rewrite filter_app_last.
  - eexists. split; [reflexivity|].
    unfold Storage.load_expenses. rewrite load_saved; [reflexivity|].
    eapply load_expenses_valid, Hl.
  - intros b Hb. apply negb_true_iff, String.eqb_neq. now apply Hfresh.
  - now rewrite String.eqb_refl.
Qed.

Lemma add_then_delete_witness :
  exists st'',
    Manager.delete_expense (fun _ => None) Samples.clock
      (Storage.mkState
         (Storage.Json
            (Storage.JArray
               (map (fun e => Models.Obj (Models.to_dict e))
                    [Samples.lunch;
                     Samples.expense 9 "books" "2024-06-01" "0a1b2c3d"])))
         1)
      (Models.id (Samples.expense 9 "books" "2024-06-01" "0a1b2c3d"))
    = Ok (true, st'')
    /\ Storage.load_expenses (fun _ => None) Samples.clock st''
       = Ok [Samples.lunch].
Proof.
  refine (@add_then_delete (fun _ => None) Samples.clock Samples.clock
            Samples.clock
            (Models.mkDefaults "2024-06-01" "0a1b2c3d" "2024-01-15T12:30:00")
            Samples.store_lunch _ [Samples.lunch] (F64.of_Z 9) " Books"
            "lunch " None _ _ _ _).
  - reflexivity.
  - reflexivity.
  - intros b [<-|[]]. discriminate.
Defined.

(** X13. [list_expenses] without a limit keeps the stored order among
    records of the same date: for every date, the listed records of that
    date are the matching stored records of that date, in the order of the
    file. *)
Theorem list_expenses_is_stable
    (parse_float : string -> option F64.float) (gen : nat -> Models.defaults)
    (st : Storage.state) (es : list Models.Expense)
    (category start_date end_date : option string) (d : string) :
  Storage.load_expenses parse_float gen st = Ok es ->
  exists listed,
    Manager.list_expenses parse_float gen st category start_date end_date None
    = Ok listed
    /\ filter (Shape.has_date d) listed
       = filter (Shape.has_date d)
           (filter (Spec.keeps (Spec.given category) (Spec.given start_date)
                               (Spec.given end_date)) es).
Proof.
  intros Hl.
  rewrite (list_expenses_sorted_filter _ _ _ category start_date end_date
                                       None Hl).
  eexists. split; [reflexivity|]. apply sort_has_date.
Qed.

Lemma list_expenses_is_stable_witness :
  exists listed,
    Manager.list_expenses (fun _ => None) Samples.clock
      (Samples.stored [Samples.expense 3 "food" "2024-01-02" "00000001";
                       Samples.expense 4 "food" "2024-01-09" "00000002";
                       Samples.expense 5 "taxi" "2024-01-02" "00000003"])
      None None None None = Ok listed
    /\ filter (Shape.has_date "2024-01-02") listed
       = filter (Shape.has_date "2024-01-02")
           (filter (Spec.keeps None None None)
                   [Samples.expense 3 "food" "2024-01-02" "00000001";
                    Samples.expense 4 "food" "2024-01-09" "00000002";
                    Samples.expense 5 "taxi" "2024-01-02" "00000003"]).
Proof.
  refine (@list_expenses_is_stable (fun _ => None) Samples.clock
            (Samples.stored
               [Samples.expense 3 "food" "2024-01-02" "00000001";
                Samples.expense 4 "food" "2024-01-09" "00000002";
                Samples.expense 5 "taxi" "2024-01-02" "00000003"])
            _ None None None "2024-01-02"%string _).
  reflexivity.
Defined.

(** X14. With a positive limit, [list_expenses] returns the latest matching
    records: as many as the limit allows, and none of the matching records
    left out is dated later than a record returned. *)
Theorem list_expenses_limit_keeps_latest
    (parse_float : string -> option F64.float) (gen : nat -> Models.defaults)
    (st : Storage.state) (es : list Models.Expense)
    (category start_date end_date : option string) (n : Z) :
  Storage.load_expenses parse_float gen st = Ok es ->
  (0 < n)%Z ->
  exists shown hidden,
    Manager.list_expenses parse_float gen st category start_date end_date
                          (Some n) = Ok shown
    /\ Permutation (shown ++ hidden)
         (filter (Spec.keeps (Spec.given category) (Spec.given start_date)
                             (Spec.given end_date)) es)
    /\ List.length shown
       = Nat.min (Z.to_nat n)
           (List.length
              (filter (Spec.keeps (Spec.given category) (Spec.given start_date)
                                  (Spec.given end_date)) es))
    /\ forall a b, In a shown -> In b hidden ->
                   String.leb (Models.date b) (Models.date a) = true.
Proof.
  intros Hl Hn.
  rewrite (list_expenses_sorted_filter _ _ _ category start_date end_date
                                       (Some n) Hl).
  set (matching := filter _ es).
  set (full := Manager.sort_by_date_desc matching).
  unfold Manager.apply_limit.
  rewrite (proj2 (Z.ltb_lt 0 n) Hn).
  exists (firstn (Z.to_nat n) full), (skipn (Z.to_nat n) full).
  split; [reflexivity|]. split; [|split].
  - rewrite firstn_skipn. symmetry. apply sort_perm.
  - rewrite length_firstn. unfold full, Manager.sort_by_date_desc.
    now rewrite sort_length.
  - apply strongly_sorted_split. rewrite firstn_skipn.
    apply sort_strongly_sorted.
Qed.

Lemma list_expenses_limit_keeps_latest_witness :
  exists shown hidden,
    Manager.list_expenses (fun _ => None) Samples.clock Samples.store_summary
      None None None (Some 2%Z) = Ok shown
    /\ Permutation (shown ++ hidden)
         (filter (Spec.keeps None None None)
                 [Samples.expense 10 "food" "2024-01-03" "00000001";
                  Samples.expense 5 "transport" "2024-01-04" "00000002";
                  Samples.expense 20 "food" "2024-01-10" "00000003";
                  Samples.expense 30 "food" "2024-02-01" "00000004"])
    /\ List.length shown
       = Nat.min 2
           (List.length
              (filter (Spec.keeps None None None)
                 [Samples.expense 10 "food" "2024-01-03" "00000001";
                  Samples.expense 5 "transport" "2024-01-04" "00000002";
                  Samples.expense 20 "food" "2024-01-10" "00000003";
                  Samples.expense 30 "food" "2024-02-01" "00000004"]))
    /\ forall a b, In a shown -> In b hidden ->
                   String.leb (Models.date b) (Models.date a) = true.
Proof.
  refine (@list_expenses_limit_keeps_latest (fun _ => None) Samples.clock
            Samples.store_summary _ None None None 2%Z _ _).
  - reflexivity.
  - reflexivity.
Defined.

(** X15. The category filter of [list_expenses] does not tell apart two
    non-empty arguments that have the same lowercased, trimmed form: they
    give the same listing. *)
Theorem list_expenses_category_normal_form
    (parse_float : string -> option F64.float) (gen : nat -> Models.defaults)
    (st : Storage.state) (c1 c2 : string) (start_date end_date : option string)
    (limit : option Z) :
  c1 <> ""%string -> c2 <> ""%string ->
  PyStr.lower (PyStr.strip c1) = PyStr.lower (PyStr.strip c2) ->
  Manager.list_expenses parse_float gen st (Some c1) start_date end_date limit
  = Manager.list_expenses parse_float gen st (Some c2) start_date end_date
                          limit.
Proof.
  intros H1 H2 H. unfold Manager.list_expenses.
  destruct (Storage.load_expenses parse_float gen st) as [es|]; [|reflexivity].
  cbn [bind]. rewrite !filters_keep.
  destruct c1 as [|a1 c1]; [now elim H1|].
  destruct c2 as [|a2 c2]; [now elim H2|].
  do 3 f_equal. apply filter_ext. intros e.
  unfold Spec.keeps. cbn [Spec.given]. now rewrite H.
Qed.

Lemma list_expenses_category_normal_form_witness :
  Manager.list_expenses (fun _ => None) Samples.clock Samples.store_summary
    (Some "Food"%string) None None None
  = Manager.list_expenses (fun _ => None) Samples.clock Samples.store_summary
      (Some " food "%string) None None None.
Proof.
  apply (@list_expenses_category_normal_form (fun _ => None) Samples.clock
           Samples.store_summary "Food" " food " None None None).
  - discriminate.
  - discriminate.
  - reflexivity.
Defined.

(** ** Categories, totals and export *)

Section CategoryFacts.
Import Models.

Lemma insert_unique_In (k : string) (l : list string) (z : string) :
  In z (Manager.insert_unique k l) <-> z = k \/ In z l.
Proof.
  induction l as [|h t IH]; simpl.
  - intuition.
  - destruct (String.compare k h) eqn:E; simpl.
    + apply String.compare_eq_iff in E. subst. intuition.
    + intuition.
    + rewrite IH. intuition.
Qed.

Lemma insert_unique_sorted (k : string) (l : list string) :
  StronglySorted Spec.key_lt l ->
  StronglySorted Spec.key_lt (Manager.insert_unique k l).
Proof.
  induction l as [|h t IH]; simpl; intros H.
  - repeat constructor.
  - destruct (String.compare k h) eqn:E.
    + exact H.
    + constructor; [exact H|].
      constructor; [exact E|].
      apply StronglySorted_inv in H as [_ H].
      eapply Forall_impl; [|exact H].
      intros z Hz. eapply string_compare_lt_trans; eassumption.
    + apply StronglySorted_inv in H as [Hs Hf].
      constructor; [now apply IH|].
      apply Forall_forall. intros z Hz.
      apply insert_unique_In in Hz as [->|Hz].
      * unfold Spec.key_lt. rewrite String.compare_antisym, E. reflexivity.
      * rewrite Forall_forall in Hf. now apply Hf.
Qed.

Lemma sorted_set_spec (xs : list string) :
  forall acc,
    StronglySorted Spec.key_lt acc ->
    StronglySorted Spec.key_lt
      (fold_left (fun acc k => Manager.insert_unique k acc) xs acc)
    /\ forall z,
         In z (fold_left (fun acc k => Manager.insert_unique k acc) xs acc)
         <-> In z acc \/ In z xs.
Proof.
  induction xs as [|x xs IH]; intros acc Hacc; simpl.
  - split; [exact Hacc|]. intuition.
  - destruct (IH _ (@insert_unique_sorted x _ Hacc)) as [Hs Hin].
    split; [exact Hs|]. intros z. rewrite Hin, insert_unique_In.
    intuition.
Qed.

End CategoryFacts.

(** X16. On a collection that loads, [get_categories] returns the
    categories of the loaded records, each once, in strictly ascending
    order of code points; it is empty exactly when no record is loaded. *)
Theorem get_categories_sorted_distinct
    (parse_float : string -> option F64.float) (gen : nat -> Models.defaults)
    (st : Storage.state) (es : list Models.Expense) :
  Storage.load_expenses parse_float gen st = Ok es ->
  exists cats,
    Manager.get_categories parse_float gen st = Ok cats
    /\ StronglySorted (fun a b => String.compare a b = Lt) cats
    /\ NoDup cats
    /\ (forall k, In k cats <-> exists e, In e es /\ Models.category e = k)
    /\ (cats = [] <-> es = []).
Proof.
  intros Hl. unfold Manager.get_categories. rewrite Hl. cbn [bind].
  destruct (@sorted_set_spec (map Models.category es) [] (SSorted_nil _))
    as [Hs Hin].
  fold (Manager.sorted_set (map Models.category es)) in Hs, Hin.
  assert (Hmem : forall k,
             In k (Manager.sorted_set (map Models.category es))
             <-> exists e, In e es /\ Models.category e = k).
  { intros k. rewrite Hin, in_map_iff. simpl.
    split.
    - intros [[]|(e & He & Hk)]. eauto.
    - intros (e & He & Hk). right. eauto. }
  eexists. split; [reflexivity|]. split; [exact Hs|].
  split; [now apply sorted_keys_NoDup|]. split; [exact Hmem|].
  split.
  - intros H. destruct es as [|e es']; [reflexivity|].
    assert (Hk : In (Models.category e)
                    (Manager.sorted_set (map Models.category (e :: es'))))
      by (apply Hmem; exists e; split; [now left | reflexivity]).
    rewrite H in Hk. contradiction.
  - intros ->. reflexivity.
Qed.

Lemma get_categories_sorted_distinct_witness :
  exists cats,
    Manager.get_categories (fun _ => None) Samples.clock Samples.store_summary
    = Ok cats
    /\ StronglySorted (fun a b => String.compare a b = Lt) cats
    /\ NoDup cats
    /\ (forall k,
           In k cats
           <-> exists e,
                 In e [Samples.expense 10 "food" "2024-01-03" "00000001";
                       Samples.expense 5 "transport" "2024-01-04" "00000002";
                       Samples.expense 20 "food" "2024-01-10" "00000003";
                       Samples.expense 30 "food" "2024-02-01" "00000004"]
                 /\ Models.category e = k)
    /\ (cats = []
        <-> [Samples.expense 10 "food" "2024-01-03" "00000001";
             Samples.expense 5 "transport" "2024-01-04" "00000002";
             Samples.expense 20 "food" "2024-01-10" "00000003";
             Samples.expense 30 "food" "2024-02-01" "00000004"] = []).
Proof.
  refine (@get_categories_sorted_distinct (fun _ => None) Samples.clock
            Samples.store_summary _ _).
  reflexivity.
Defined.

(** X17. The categories of the rows of [get_summary] without a month are
    the categories that [get_categories] returns: the one list is a
    rearrangement of the other, whatever the kernels of pandas compute. *)
Theorem summary_rows_are_the_categories
    (parse_float : string -> option F64.float) (gen : nat -> Models.defaults)
    (K : Pandas.kernels) (st : Storage.state) (es : list Models.Expense) :
  Storage.load_expenses parse_float gen st = Ok es ->
  exists rows cats,
    Manager.get_summary parse_float gen K st None = Ok rows
    /\ Manager.get_categories parse_float gen st = Ok cats
    /\ Permutation (map Manager.row_category rows) cats.
Proof.
  intros Hl.
  rewrite (get_summary_rows _ _ K _ None Hl).
  unfold Manager.get_categories. rewrite Hl. cbn [bind].
  do 2 eexists. split; [reflexivity|]. split; [reflexivity|].
  assert (Hf : filter (Spec.in_month None) es = es) by apply filter_true.
  rewrite Hf, agg_groupby, map_map. cbn [Manager.round_row Manager.row_category].
  set (ks := Spec.keys (Manager.groupby_category es)).
  assert (Hperm : Permutation
                    (map (fun r => Manager.row_category r)
                         (Manager.sort_values_total_desc
                            (map (Spec.row_of K es) ks)))
                    ks).
  { unfold Manager.sort_values_total_desc.
    rewrite <- (sort_perm _ (map (Spec.row_of K es) ks)), map_map.
    simpl. now rewrite map_id. }
  rewrite Hperm.
  destruct (@sorted_set_spec (map Models.category es) [] (SSorted_nil _))
    as [Hs Hin].
  apply NoDup_Permutation.
  - apply groupby_keys_NoDup.
  - now apply sorted_keys_NoDup.
  - intros k. unfold Manager.sorted_set. rewrite Hin.
    unfold ks. rewrite (groupby_keys es k), in_map_iff.
    split.
    + intros (e & He & Hk). right. eauto.
    + intros [[]|(e & He & Hk)]. eauto.
Qed.

Lemma summary_rows_are_the_categories_witness :
  exists rows cats,
    Manager.get_summary (fun _ => None) Samples.clock Samples.kernels
      Samples.store_summary None = Ok rows
    /\ Manager.get_categories (fun _ => None) Samples.clock
         Samples.store_summary = Ok cats
    /\ Permutation (map Manager.row_category rows) cats.
Proof.
  refine (@summary_rows_are_the_categories (fun _ => None) Samples.clock
            Samples.kernels Samples.store_summary _ _).
  reflexivity.
Defined.

(** X18. Where the built-in [sum] adds from left to right (CPython 3.10
    and 3.11), [ExpenseManager.add_expense] raises the total of
    [get_total_spending] (without a month) by the amount added, in float
    arithmetic: the new total is the old total plus the amount of the new
    record, the old total being the integer 0 when nothing was stored.
    Where [sum] is compensated (CPython 3.12 and later) this need not hold:
    with 0.1 and 0.2 stored and 0.3 added, the new total is 0.6 and the old
    total plus 0.3 is 0.6000000000000001. *)
Theorem add_raises_total_by_amount :
  (forall (parse_float : string -> option F64.float)
          (gen gen' : nat -> Models.defaults) (dflt : Models.defaults)
          (st st' : Storage.state) (a : F64.float) (c d : string)
          (dt : option string) (e : Models.Expense),
      Manager.add_expense parse_float gen dflt st a c d dt = Ok (e, st') ->
      Models.amount e = a
      /\ exists total,
           Manager.get_total_spending parse_float gen Manager.LeftToRight st
             None = Ok total
           /\ Manager.get_total_spending parse_float gen' Manager.LeftToRight
                st' None
              = Ok (Manager.add_float total a))
  /\ (forall (parse_float : string -> option F64.float)
             (gen : nat -> Models.defaults),
         exists total e st',
           Manager.get_total_spending parse_float gen Manager.Compensated
             (Samples.stored [Samples.spent (F64.dec 1 1) "00000001";
                              Samples.spent (F64.dec 2 1) "00000002"])
             None = Ok total
           /\ Manager.add_expense parse_float gen (Samples.clock 0)
                (Samples.stored [Samples.spent (F64.dec 1 1) "00000001";
                                 Samples.spent (F64.dec 2 1) "00000002"])
                (F64.dec 3 1) "food" "lunch" None = Ok (e, st')
           /\ Manager.get_total_spending parse_float gen Manager.Compensated
                st' None = Ok (Manager.Float (F64.dec 6 1))
           /\ Manager.add_float total (F64.dec 3 1)
              <> Manager.Float (F64.dec 6 1)).
Proof.
  split.
  - intros parse_float gen gen' dflt st st' a c d dt e Ha.
    assert (Hamount : Models.amount e = a).
    { unfold Manager.add_expense in Ha.
      destruct (Models.new_Expense a c d _ _ _) as [e0|] eqn:Hn;
        simpl in Ha; [|discriminate].
      destruct (Storage.add_expense parse_float gen st e0); simpl in Ha;
        [|discriminate].
      injection Ha as <- _.
      now apply new_Expense_ok in Hn as (_ & _ & ->). }
    split; [exact Hamount|].
    apply add_expense_valid in Ha as (He & _ & es & Hl & ->).
    unfold Manager.get_total_spending. rewrite Hl.
    unfold Storage.load_expenses at 1.
    rewrite load_saved.
    + cbn [bind fst Manager.if_given].
      eexists. split; [reflexivity|].
      unfold Manager.py_sum, Manager.sum_left_to_right.
      now rewrite map_app, fold_left_app, <- Hamount.
    + apply Forall_app. split; [eapply load_expenses_valid, Hl|].
      now repeat constructor.
  - intros parse_float gen. do 3 eexists.
    split; [reflexivity|]. split; [reflexivity|]. split; [reflexivity|].
    vm_compute. discriminate.
Qed.

Lemma add_raises_total_by_amount_witness :
  Models.amount (Samples.expense 9 "books" "2024-06-01" "0a1b2c3d")
  = F64.of_Z 9
  /\ exists total,
       Manager.get_total_spending (fun _ => None) Samples.clock
         Manager.LeftToRight Samples.store_lunch None = Ok total
       /\ Manager.get_total_spending (fun _ => None) Samples.clock
            Manager.LeftToRight
            (Storage.mkState
               (Storage.Json
                  (Storage.JArray
                     (map (fun e => Models.Obj (Models.to_dict e))
                          [Samples.lunch;
                           Samples.expense 9 "books" "2024-06-01" "0a1b2c3d"])))
               1)
            None
          = Ok (Manager.add_float total (F64.of_Z 9)).
Proof.
  refine (proj1 add_raises_total_by_amount (fun _ => None) Samples.clock
            Samples.clock
            (Models.mkDefaults "2024-06-01" "0a1b2c3d" "2024-01-15T12:30:00")
            Samples.store_lunch _ (F64.of_Z 9) " Books"%string
            "lunch "%string None _ _).
  reflexivity.
Defined.

(** X19. When no loaded record falls in the month, and so on an empty
    collection, [get_total_spending] returns the integer 0, under either
    summation of the built-in [sum]. *)
Theorem total_of_nothing_is_zero
    (parse_float : string -> option F64.float) (gen : nat -> Models.defaults)
    (how : Manager.summation) (st : Storage.state)
    (es : list Models.Expense) (month : option string) :
  Storage.load_expenses parse_float gen st = Ok es ->
  (forall e, In e es -> Spec.in_month month e = false) ->
  Manager.get_total_spending parse_float gen how st month
  = Ok (Manager.Int 0).
Proof.
  intros Hl Hnone. unfold Manager.get_total_spending. rewrite Hl.
  cbn [bind]. rewrite month_filter.
  replace (filter (Spec.in_month month) es) with (@nil Models.Expense);
    [now destruct how|].
  symmetry. clear Hl. induction es as [|e es IH]; simpl; [reflexivity|].
  rewrite (Hnone e) by now left. apply IH.
  intros b Hb. apply Hnone. now right.
Qed.

Lemma total_of_nothing_is_zero_witness :
  Manager.get_total_spending (fun _ => None) Samples.clock Manager.Compensated
    Samples.store_lunch (Some "2023-12"%string) = Ok (Manager.Int 0).
Proof.
  apply (@total_of_nothing_is_zero (fun _ => None) Samples.clock
           Manager.Compensated Samples.store_lunch [Samples.lunch]
           (Some "2023-12"%string)).
  - reflexivity.
  - intros e [<-|[]]. reflexivity.
Defined.

(** X20. [export_to_csv] returns the number of records that
    [list_expenses] returns under the same filters, and writes one row per
    such record in the order of the listing.  With no record it writes the
    five columns id, date, category, amount, description and no row; with
    records it writes six columns, created_at being the last, and every row
    has six cells. *)
Theorem export_counts_listed_records
    (parse_float : string -> option F64.float) (gen : nat -> Models.defaults)
    (st : Storage.state) (category start_date end_date : option string)
    (limit : option Z) (n : nat) (fr : Manager.frame) :
  Manager.export_to_csv parse_float gen st category start_date end_date limit
  = Ok (n, fr) ->
  exists listed,
    Manager.list_expenses parse_float gen st category start_date end_date limit
    = Ok listed
    /\ n = List.length listed
    /\ List.length (Manager.rows fr) = n
    /\ map (fun row => nth 0 row Models.VNone) (Manager.rows fr)
       = map (fun e => Models.VStr (Models.id e)) listed
    /\ (n = 0 ->
        Manager.columns fr
        = ["id"; "date"; "category"; "amount"; "description"]%string)
    /\ (n <> 0 ->
        Manager.columns fr
        = ["id"; "date"; "category"; "amount"; "description";
           "created_at"]%string
        /\ Forall (fun row => List.length row = 6) (Manager.rows fr)).
Proof.
  unfold Manager.export_to_csv.
  destruct (Manager.list_expenses parse_float gen st category start_date
                                  end_date limit) as [listed|];
    simpl; [|discriminate].
  intros [= <- <-]. exists listed. split; [reflexivity|].
  split; [reflexivity|].
  destruct listed as [|e l]; simpl.
  - split; [reflexivity|]. split; [reflexivity|]. split; [reflexivity|].
    intros Hn. now elim Hn.
  - rewrite length_map, map_map. simpl.
    split; [reflexivity|]. split; [reflexivity|]. split; [discriminate|].
    intros _. split; [reflexivity|].
    constructor; [reflexivity|].
    apply Forall_forall. intros row Hrow.
    apply in_map_iff in Hrow as (x & <- & _). reflexivity.
Qed.

Lemma export_counts_listed_records_witness :
  exists listed,
    Manager.list_expenses (fun _ => None) Samples.clock Samples.store_lunch
      (Some "taxi"%string) None None None = Ok listed
    /\ 0 = List.length listed
    /\ List.length
         (Manager.rows
            (Manager.mkFrame
               ["id"; "date"; "category"; "amount"; "description"]%string []))
       = 0
    /\ map (fun row => nth 0 row Models.VNone)
           (Manager.rows
              (Manager.mkFrame
                 ["id"; "date"; "category"; "amount"; "description"]%string []))
       = map (fun e => Models.VStr (Models.id e)) listed
    /\ (0 = 0 ->
        Manager.columns
          (Manager.mkFrame
             ["id"; "date"; "category"; "amount"; "description"]%string [])
        = ["id"; "date"; "category"; "amount"; "description"]%string)
    /\ (0 <> 0 ->
        Manager.columns
          (Manager.mkFrame
             ["id"; "date"; "category"; "amount"; "description"]%string [])
        = ["id"; "date"; "category"; "amount"; "description";
           "created_at"]%string
        /\ Forall (fun row => List.length row = 6)
             (Manager.rows
                (Manager.mkFrame
                   ["id"; "date"; "category"; "amount"; "description"]%string
                   []))).
Proof.
  refine (@export_counts_listed_records (fun _ => None) Samples.clock
            Samples.store_lunch (Some "taxi"%string) None None None 0
            (Manager.mkFrame
               ["id"; "date"; "category"; "amount"; "description"]%string [])
            _).
  reflexivity.
Defined.

(** ** The commands [add] and [delete] *)

Section CliFacts.
Import Models.

Variable parse_float : string -> option F64.float.

Lemma get_manager_cases (st : Storage.state) :
  Cli.get_manager st
  = match Storage.file st with
    | Storage.Absent =>
        Ok (Storage.mkState (Storage.Json (Storage.JArray []))
                            (S (Storage.writes st)))
    | _ => Ok st
    end.
Proof.
  unfold Cli.get_manager, Storage._ensure_file_exists, Storage._write_data.
  now destruct (Storage.file st) eqn:E; rewrite ?E.
Qed.



End CliFacts.

(** X21. The command [delete] on an id that no loaded record carries ends
    with status 1 and the message that the expense was not found, with or
    without [--force] and whatever the answer to the prompt would be; the
    collection is left as it was (an absent file is created empty by
    [get_manager], any other file is not written). *)
Theorem cli_delete_unknown_id
    (parse_float : string -> option F64.float)
    (gen1 gen2 : nat -> Models.defaults)
    (st : Storage.state) (es : list Models.Expense) (x : string)
    (force confirm : bool) :
  Storage.load_expenses parse_float gen1 st = Ok es ->
  (forall e, In e es -> Models.id e <> x) ->
  exists st1,
    Cli.delete parse_float gen1 gen2 st x force confirm
    = Ok (Cli.mkOutcome 1 Cli.NotFound st1)
    /\ (Storage.file st <> Storage.Absent -> st1 = st)
    /\ Storage.load_expenses parse_float gen1 st1 = Ok es.
Proof.
  intros Hl Hx. unfold Cli.delete. rewrite get_manager_cases.
  destruct (Storage.file st) eqn:E.
  - assert (es = []) as ->.
    { unfold Storage.load_expenses, Storage.load_expenses_log,
        Storage._read_data in Hl. rewrite E in Hl. now injection Hl. }
    eexists. split; [reflexivity|]. split; [intros H; now elim H|reflexivity].
  - exists st. cbn [bind].
    rewrite (@get_by_id_none parse_float gen1 st es x Hl Hx).
    auto.
  - exists st. cbn [bind].
    rewrite (@get_by_id_none parse_float gen1 st es x Hl Hx).
    auto.
  - exists st. cbn [bind].
    rewrite (@get_by_id_none parse_float gen1 st es x Hl Hx).
    auto.
Qed.

Lemma cli_delete_unknown_id_witness :
  exists st1,
    Cli.delete (fun _ => None) Samples.clock Samples.clock Samples.store_lunch
      "ffffffff" true false
    = Ok (Cli.mkOutcome 1 Cli.NotFound st1)
    /\ (Storage.file Samples.store_lunch <> Storage.Absent
        -> st1 = Samples.store_lunch)
    /\ Storage.load_expenses (fun _ => None) Samples.clock st1
       = Ok [Samples.lunch].
Proof.
  refine (@cli_delete_unknown_id (fun _ => None) Samples.clock Samples.clock
            Samples.store_lunch [Samples.lunch] "ffffffff"%string true false
            _ _).
  - reflexivity.
  - intros e [<-|[]]. discriminate.
Defined.





(** ** Records stored without id *)

Section NoStoredId.
Import Models.

Variable parse_float : string -> option F64.float.



End NoStoredId.



(** X25. The command [add] ends with status 1 and the message of the
    validation error exactly when the amount is at or below zero or the
    description is empty after trimming; no record is then added: the
    storage is the one [get_manager] found or created. *)
Theorem cli_add_rejects_invalid_input
    (parse_float : string -> option F64.float) (gen : nat -> Models.defaults)
    (dflt : Models.defaults) (st st1 : Storage.state) (a : F64.float)
    (c d : string) (dt : option string) :
  Cli.get_manager st = Ok st1 ->
  (F64.leb a F64.zero = true \/ PyStr.strip d = ""%string)
  <-> exists msg,
        Cli.add parse_float gen dflt st a c d dt
        = Ok (Cli.mkOutcome 1 (Cli.Rejected msg) st1)
        /\ (msg = Models.msg_amount \/ msg = Models.msg_description).
Proof.
  intros Hm. unfold Cli.add. rewrite Hm. cbn [bind].
  pose proof (validation_error_add_expense parse_float gen dflt st1 a c d dt)
    as Hv.
  pose proof (validation_error_new_Expense a c d
                (Manager.or_default dt (Models.today dflt))
                (Models.uuid8 dflt) (Models.now_iso dflt)) as Hiff.
  rewrite <- Hiff, <- Hv. clear Hiff.
  unfold Manager.add_expense in *.
  rewrite new_Expense_cases in *.
  destruct (F64.leb a F64.zero).
  - simpl. split; [|reflexivity]. intros _. eexists. split; [reflexivity|].
    now left.
  - destruct (PyStr.blank d).
    + simpl. split; [|reflexivity]. intros _. eexists.
      split; [reflexivity|]. now right.
    + cbn [bind] in *.
      destruct (Storage.add_expense parse_float gen st1 _) as [st'|x];
        cbn [bind] in *.
      * split; [discriminate|]. intros (m0 & H0 & _). discriminate.
      * destruct x; simpl in Hv |- *; try discriminate Hv;
          (split; [discriminate|]); intros (m0 & H0 & _); discriminate.
Qed.

Lemma cli_add_rejects_invalid_input_witness :
  (F64.leb (F64.of_Z (-5)) F64.zero = true \/ PyStr.strip "lunch" = ""%string)
  <-> exists msg,
        Cli.add (fun _ => None) Samples.clock (Samples.clock 0)
          Samples.store_lunch (F64.of_Z (-5)) "food" "lunch" None
        = Ok (Cli.mkOutcome 1 (Cli.Rejected msg) Samples.store_lunch)
        /\ (msg = Models.msg_amount \/ msg = Models.msg_description).
Proof.
  apply (@cli_add_rejects_invalid_input (fun _ => None) Samples.clock
           (Samples.clock 0) Samples.store_lunch Samples.store_lunch
           (F64.of_Z (-5)) "food" "lunch" None).
  reflexivity.
Defined.

(** ** The shape of the summary *)

Section SummaryShape.
Import Models.

(** The count of a group is the number of its records whose amount is
    there. *)
Lemma count_amounts (k : string) (df : list Expense) :
  Pandas.count (Spec.amounts_of k df)
  = Z.of_nat
      (List.length
         (filter (fun e => String.eqb (category e) k
                           && Pandas.notna (amount e)) df)).
Proof.
  unfold Pandas.count, Spec.amounts_of. f_equal.
  induction df as [|e df IH]; simpl; [reflexivity|].
  destruct (String.eqb (category e) k); simpl; [|exact IH].
  destruct (Pandas.notna (amount e)); simpl; now rewrite IH.
Qed.

Lemma filter_both (A : Type) (f g : A -> bool) (l : list A) :
  filter g (filter f l) = filter (fun x => f x && g x) l.
Proof.
  induction l as [|x l IH]; simpl; [reflexivity|].
  destruct (f x); simpl; [|exact IH].
  destruct (g x); now rewrite IH.
Qed.

(** The categories of the rows are the keys of the groups, in the order of
    the totals. *)
Lemma summary_categories (K : Pandas.kernels) (df : list Expense) :
  Permutation
    (map Manager.row_category
       (map (Manager.round_row K)
          (Manager.sort_values_total_desc
             (Manager.agg K (Manager.groupby_category df)))))
    (Spec.keys (Manager.groupby_category df)).
Proof.
  rewrite agg_groupby, map_map. cbn [Manager.round_row Manager.row_category].
  unfold Manager.sort_values_total_desc.
  rewrite <- (sort_perm _ (map (Spec.row_of K df) _)), map_map.
  simpl. now rewrite map_id.
Qed.

End SummaryShape.

(** X26. On a collection that loads, [get_summary] returns without error,
    whatever the month and whatever the kernels of pandas compute.  Its
    rows are one for each category of the records of the month and no
    other, each category once, so that the result is empty exactly when no
    record is in the month; the count of a row is the number of the records
    of the month in its category whose amount is not NaN. *)
Theorem summary_has_one_row_per_category
    (parse_float : string -> option F64.float) (gen : nat -> Models.defaults)
    (K : Pandas.kernels) (st : Storage.state) (es : list Models.Expense)
    (month : option string) :
  Storage.load_expenses parse_float gen st = Ok es ->
  exists rows,
    Manager.get_summary parse_float gen K st month = Ok rows
    /\ NoDup (map Manager.row_category rows)
    /\ (forall k,
          In k (map Manager.row_category rows)
          <-> exists e, In e es /\ Spec.in_month month e = true
                        /\ Models.category e = k)
    /\ (rows = [] <-> forall e, In e es -> Spec.in_month month e = false)
    /\ (forall r,
          In r rows ->
          Manager.row_count r
          = Z.of_nat
              (List.length
                 (filter (fun e => Spec.in_month month e
                                   && (String.eqb (Models.category e)
                                                  (Manager.row_category r)
                                       && Pandas.notna (Models.amount e)))
                         es))).
Proof.
  intros Hl. rewrite (get_summary_rows _ _ K _ month Hl).
  set (df := filter (Spec.in_month month) es).
  eexists. split; [reflexivity|].
  pose proof (summary_categories K df) as Hperm.
  assert (Hin : forall k,
             In k (map Manager.row_category
                     (map (Manager.round_row K)
                        (Manager.sort_values_total_desc
                           (Manager.agg K (Manager.groupby_category df)))))
             <-> exists e, In e es /\ Spec.in_month month e = true
                           /\ Models.category e = k).
  { intros k. split.
    - intros H. apply (Permutation_in _ Hperm) in H.
      apply groupby_keys in H as (e & He & Hk).
      apply filter_In in He as [He Hm]. eauto.
    - intros (e & He & Hm & Hk).
      apply (Permutation_in _ (Permutation_sym Hperm)).
      apply groupby_keys. exists e. split; [|exact Hk].
      apply filter_In. auto. }
  split; [|split; [exact Hin|split]].
  - apply (Permutation_NoDup (Permutation_sym Hperm)), groupby_keys_NoDup.
  - split.
    + intros H e He. rewrite H in Hin. simpl in Hin.
      destruct (Spec.in_month month e) eqn:Hm; [|reflexivity].
      elim (proj2 (Hin (Models.category e))). eauto.
    + intros H.
      destruct (map (Manager.round_row K) _) as [|r rows] eqn:E;
        [reflexivity|].
      destruct (proj1 (Hin (Manager.row_category r)) (or_introl eq_refl))
        as (e & He & Hm & _).
      rewrite (H e He) in Hm. discriminate.
  - intros r Hr. apply in_map_iff in Hr as (r0 & <- & Hr0).
    apply sort_In in Hr0. rewrite agg_groupby in Hr0.
    apply in_map_iff in Hr0 as (k & <- & _).
    cbn [Manager.round_row Manager.row_category Manager.row_count Spec.row_of].
    rewrite count_amounts. unfold df. now rewrite filter_both.
Qed.

Lemma summary_has_one_row_per_category_witness :
  exists rows,
    Manager.get_summary (fun _ => None) Samples.clock Samples.kernels
      Samples.store_summary (Some "2024-01"%string) = Ok rows
    /\ NoDup (map Manager.row_category rows)
    /\ (forall k,
          In k (map Manager.row_category rows)
          <-> exists e, In e Samples.summary_records
                        /\ Spec.in_month (Some "2024-01"%string) e = true
                        /\ Models.category e = k)
    /\ (rows = []
        <-> forall e, In e Samples.summary_records ->
                      Spec.in_month (Some "2024-01"%string) e = false)
    /\ (forall r,
          In r rows ->
          Manager.row_count r
          = Z.of_nat
              (List.length
                 (filter (fun e => Spec.in_month (Some "2024-01"%string) e
                                   && (String.eqb (Models.category e)
                                                  (Manager.row_category r)
                                       && Pandas.notna (Models.amount e)))
                         Samples.summary_records))).
Proof.
  refine (@summary_has_one_row_per_category (fun _ => None) Samples.clock
            Samples.kernels Samples.store_summary Samples.summary_records
            (Some "2024-01"%string) _).
  reflexivity.
Defined.
